(** * Virtual Painter: finger classification, gesture handling and compositing

    A shallow embedding of [HandTrackingModule.HandDetector.fingersUp] and of
    the body of the main loop of [VirtualPainter.py] (gesture handling,
    lines 41-72, and the merge of header, frame and canvas, lines 75-80).

    Images are numpy arrays of shape (rows, columns, 3) and dtype uint8: a
    list of rows of BGR pixels, each channel a [Z] in [0, 256).  Python
    exceptions are values of an error monad.  The OpenCV drawing primitives
    ([cv2.line], [cv2.rectangle], [cv2.circle]) are not part of the
    repository; the main loop is parametrised by them. *)

From stdpp Require Import base option list numbers.

Local Open Scope Z_scope.

(** ** Data model *)

(** A BGR pixel, as the tuples [(0, 0, 255)] of the script. *)
Abbreviation pixel := (Z * Z * Z)%type.
Abbreviation image := (list (list pixel)).
Abbreviation point := (Z * Z)%type.

(** One entry [[landmarkID, cx, cy]] of [lmList]. *)
Abbreviation landmark := (Z * Z * Z)%type.

Definition lm_x (l : landmark) : Z := l.1.2.
Definition lm_y (l : landmark) : Z := l.2.

(** ** Python exceptions *)

Inductive exn : Type :=
  | IndexError   (* list index out of range *)
  | ValueError.  (* numpy / OpenCV shape mismatch *)

Inductive result (A : Type) : Type :=
  | Ok (a : A)
  | Raise (e : exn).
Arguments Ok {A} a.
Arguments Raise {A} e.

#[global] Instance result_ret : MRet result := λ A a, Ok a.
#[global] Instance result_bind : MBind result := λ A B f m,
  match m with
  | Ok a => f a
  | Raise e => Raise e
  end.

(** [l[i]] for a non-negative index. *)
Definition getitem {A} (l : list A) (i : nat) : result A :=
  match l !! i with
  | Some a => Ok a
  | None => Raise IndexError
  end.

(** [for x in xs: out.append(f(x))], stopping at the first exception. *)
Fixpoint for_each {A B} (f : A → result B) (xs : list A) : result (list B) :=
  match xs with
  | [] => Ok []
  | x :: xs' => y ← f x; ys ← for_each f xs'; Ok (y :: ys)
  end.

(** ** HandTrackingModule.py *)

Module HandDetector.

(** [self.tipIds] *)
Definition tipIds : list nat := [4; 8; 12; 16; 20]%nat.

(** The thumb entry, lines 159-169. *)
Definition thumbUp (landmarkList : list landmark) : result Z :=
  t0 ← getitem tipIds 0;
  t4 ← getitem tipIds 4;
  thumb ← getitem landmarkList t0;
  pinky ← getitem landmarkList t4;
  below ← getitem landmarkList (t0 - 1);
  if bool_decide (lm_x thumb < lm_x pinky) then
    (* left hand *)
    if bool_decide (lm_x thumb < lm_x below) then Ok 1 else Ok 0
  else
    (* right hand *)
    if bool_decide (lm_x thumb > lm_x below) then Ok 1 else Ok 0.

(** One round of the loop of lines 172-176. *)
Definition fingerUp (landmarkList : list landmark) (id : nat) : result Z :=
  t ← getitem tipIds id;
  tip ← getitem landmarkList t;
  joint ← getitem landmarkList (t - 2);
  if bool_decide (lm_y tip < lm_y joint) then Ok 1 else Ok 0.

(** [fingersUp], lines 156-178: 1 for a finger that is up, 0 otherwise. *)
Definition fingersUp (landmarkList : list landmark) : result (list Z) :=
  thumb ← thumbUp landmarkList;
  rest ← for_each (fingerUp landmarkList) (seq 1 4);
  Ok (thumb :: rest).

(** Coordinates of landmark [i] of a snapshot. *)
Definition X (landmarkList : list landmark) (i : nat) : Z :=
  lm_x (landmarkList !!! i).
Definition Y (landmarkList : list landmark) (i : nat) : Z :=
  lm_y (landmarkList !!! i).

End HandDetector.

(** ** OpenCV *)

(** The OpenCV calls whose result depends on rasterisation or rounding:
    [cv2.line(img, pt1, pt2, color, thickness)],
    [cv2.rectangle(img, pt1, pt2, color, cv2.FILLED)],
    [cv2.circle(img, center, radius, color, cv2.FILLED)], and the value
    [cv2.cvtColor(_, cv2.COLOR_BGR2GRAY)] gives one pixel. *)
Class Cv2 : Type := {
  cv2_line : image → point → point → pixel → Z → image;
  cv2_rectangle : image → point → point → pixel → image;
  cv2_circle : image → point → Z → pixel → image;
  cv2_gray : pixel → Z;
}.

(** [a.shape[:2]] of an array given as a list of rows. *)
Definition shape (a : image) : nat * nat :=
  (length a, match a with [] => 0 | row :: _ => length row end)%nat.

(** [np.zeros((rows, cols, 3), np.uint8)] *)
Definition np_zeros (rows cols : nat) : image :=
  replicate rows (replicate cols (0, 0, 0)).

Definition same_shape {A B} (a : list (list A)) (b : list (list B)) : bool :=
  bool_decide (length <$> a = length <$> b).

Definition channelwise (f : Z → Z → Z) (p q : pixel) : pixel :=
  (f p.1.1 q.1.1, f p.1.2 q.1.2, f p.2 q.2).

(** [cv2.bitwise_and] and [cv2.bitwise_or] on two arrays of the same shape,
    as the script calls them: frame, mask and canvas all have the canvas's
    shape.  Operands of different shapes are filed as an error; OpenCV
    raises [cv2.error] for them, except that it reads an operand of a single
    row and column as a scalar, a call the script never makes. *)
Definition bitwise (f : Z → Z → Z) (a b : image) : result image :=
  if same_shape a b then Ok (zip_with (zip_with (channelwise f)) a b)
  else Raise ValueError.
Definition cv2_bitwise_and : image → image → result image := bitwise Z.land.
Definition cv2_bitwise_or : image → image → result image := bitwise Z.lor.

(** [cv2.threshold(g, thresh, maxval, cv2.THRESH_BINARY_INV)[1]] *)
Definition cv2_threshold_BINARY_INV (g : list (list Z)) (thresh maxval : Z)
  : list (list Z) :=
  fmap (M:=list) (λ v, if bool_decide (v > thresh) then 0 else maxval) <$> g.

(** [cv2.cvtColor(g, cv2.COLOR_GRAY2BGR)] *)
Definition cv2_cvtColor_GRAY2BGR (g : list (list Z)) : image :=
  fmap (M:=list) (λ v, (v, v, v)) <$> g.

(** [cv2.cvtColor(a, cv2.COLOR_BGR2GRAY)] *)
Definition cv2_cvtColor_BGR2GRAY `{cv : Cv2} (a : image) : list (list Z) :=
  fmap (M:=list) cv2_gray <$> a.

(** ** VirtualPainter.py *)

Module VirtualPainter.
Import HandDetector.

Definition WIDTH : nat := 1280.
Definition HEIGHT : nat := 720.
Definition POINTER_THICKNESS : Z := 20.

(** The variables the main loop carries from one frame to the next. *)
Record State : Type := mkState {
  img_canvas : image;
  last_x : Z;
  last_y : Z;
  header : image;
  draw_color : pixel;
}.

Definition set_last (x y : Z) (st : State) : State :=
  mkState (img_canvas st) x y (header st) (draw_color st).
Definition set_tool (h : image) (c : pixel) (st : State) : State :=
  mkState (img_canvas st) (last_x st) (last_y st) h c.
Definition set_canvas (a : image) (st : State) : State :=
  mkState a (last_x st) (last_y st) (header st) (draw_color st).

(** Python truth value of an integer. *)
Definition truthy (v : Z) : bool := negb (v =? 0).

(** [img[0:header.shape[0], 0:header.shape[1]] = header], line 75.  The
    slice is cut at the frame's border, and numpy refuses an assignment
    whose shapes differ. *)
Definition paste_header (img header : image) : result image :=
  let '(hh, hw) := shape header in
  let '(ih, iw) := shape img in
  if bool_decide (hh ≤ ih ∧ hw ≤ iw)%nat then
    Ok (zip_with (λ hrow row, hrow ++ drop hw row) header (take hh img)
          ++ drop hh img)
  else Raise ValueError.

Section Loop.
Context `{cv : Cv2}.
(** [overlay_list], the header images read at start-up. *)
Variable overlay_list : list image.

(** Lines 15-16 and 25-26. *)
Definition initial : result State :=
  h ← getitem overlay_list 0;
  Ok (mkState (np_zeros HEIGHT WIDTH) 0 0 h (0, 0, 255)).

(** The toolbar regions, lines 50-61. *)
Definition select_tool (x1 : Z) (st : State) : result State :=
  if bool_decide (60 < x1 < 230) then
    h ← getitem overlay_list 0; Ok (set_tool h (0, 0, 255) st)
  else if bool_decide (380 < x1 < 550) then
    h ← getitem overlay_list 1; Ok (set_tool h (255, 0, 0) st)
  else if bool_decide (700 < x1 < 870) then
    h ← getitem overlay_list 2; Ok (set_tool h (0, 255, 0) st)
  else if bool_decide (1030 < x1 < 1250) then
    h ← getitem overlay_list 3; Ok (set_tool h (0, 0, 0) st)
  else Ok st.

(** Lines 66-69, the stroke step of draw mode (the spec's
    [continueStroke]); the point (0, 0) stands for "no last point". *)
Definition continueStroke (x1 y1 : Z) (st : State) : State :=
  let st := if bool_decide (last_x st = 0) && bool_decide (last_y st = 0)
            then set_last x1 y1 st else st in
  let st := set_canvas (cv2_line (img_canvas st) (last_x st, last_y st)
                          (x1, y1) (draw_color st) POINTER_THICKNESS) st in
  set_last x1 y1 st.

(** Line 72. *)
Definition clear_canvas (st : State) : State :=
  let '(rows, cols) := shape (img_canvas st) in
  set_canvas (np_zeros rows cols) st.

(** Selection mode, lines 48-62. *)
Definition selection_mode (x1 y1 x2 y2 : Z) (st : State) (img : image)
  : result (State * image) :=
  let st := set_last 0 0 st in
  st ← (if bool_decide (y1 < 100) then select_tool x1 st else Ok st);
  Ok (st, cv2_rectangle img (x1, y1 - 25) (x2, y2 + 25) (draw_color st)).

(** Draw mode, lines 65-69. *)
Definition draw_mode (x1 y1 : Z) (st : State) (img : image)
  : State * image :=
  let img := cv2_circle img (x1, y1) POINTER_THICKNESS (draw_color st) in
  (continueStroke x1 y1 st, img).

(** Lines 41-72.  [fingers_up[1]] and [fingers_up[2]] are read once,
    ahead of the branches. *)
Definition handle_gestures (landmark_list : list landmark)
    (st : State) (img : image) : result (State * image) :=
  if bool_decide (0 < length landmark_list)%nat then
    fingers_up ← fingersUp landmark_list;
    tip1 ← getitem tipIds 1;
    lm1 ← getitem landmark_list tip1;
    tip2 ← getitem tipIds 2;
    lm2 ← getitem landmark_list tip2;
    let '(x1, y1) := (lm_x lm1, lm_y lm1) in
    let '(x2, y2) := (lm_x lm2, lm_y lm2) in
    index ← getitem fingers_up 1;
    middle ← getitem fingers_up 2;
    '(st, img) ←
      (if truthy index && truthy middle then
         selection_mode x1 y1 x2 y2 st img
       else if truthy index && negb (truthy middle) then
         Ok (draw_mode x1 y1 st img)
       else Ok (st, img));
    (* Clear canvas when all fingers are up *)
    if forallb (λ x, bool_decide (x >= 1)) fingers_up then
      Ok (clear_canvas st, img)
    else Ok (st, img)
  else Ok (st, img).

(** Lines 76-80. *)
Definition merge_canvas (img canvas : image) : result image :=
  let img_gray := cv2_cvtColor_BGR2GRAY canvas in
  let img_inv := cv2_threshold_BINARY_INV img_gray 50 255 in
  let img_inv := cv2_cvtColor_GRAY2BGR img_inv in
  img ← cv2_bitwise_and img img_inv;
  cv2_bitwise_or img canvas.

(** What lines 76-80 do to one pixel [p] of the frame whose canvas pixel
    is [c]: the inverse mask of [c], and [(p AND mask) OR c]. *)
Definition mask_pixel (c : pixel) : pixel :=
  let v := if bool_decide (cv2_gray c > 50) then 0 else 255 in (v, v, v).
Definition composite_pixel (p c : pixel) : pixel :=
  channelwise Z.lor (channelwise Z.land p (mask_pixel c)) c.

(** Lines 75-80. *)
Definition merge (img header canvas : image) : result image :=
  img ← paste_header img header;
  merge_canvas img canvas.

(** One round of the main loop, lines 41-80, from the flipped frame with
    the landmarks drawn on it to the frame that is displayed. *)
Definition frame (landmark_list : list landmark) (img : image)
    (st : State) : result (State * image) :=
  '(st, img) ← handle_gestures landmark_list st img;
  out ← merge img (header st) (img_canvas st);
  Ok (st, out).

(** The gesture handling of consecutive frames, each given by its
    landmark list and camera image. *)
Fixpoint gestures (frames : list (list landmark * image)) (st : State)
  : result State :=
  match frames with
  | [] => Ok st
  | (landmark_list, img) :: frames' =>
      '(st, _) ← handle_gestures landmark_list st img;
      gestures frames' st
  end.

(** A run of stroke steps, each with the colour active at the time. *)
Definition stroke (st : State) (op : pixel * point) : State :=
  continueStroke op.2.1 op.2.2 (set_tool (header st) op.1 st).
Definition strokes (ops : list (pixel * point)) (st : State) : State :=
  foldl stroke st ops.

End Loop.
End VirtualPainter.

(** ** A reference rasteriser

    A small, executable stand-in for the OpenCV primitives, used to run the
    main loop on concrete frames: a thick line is the set of pixels within
    half the thickness of the segment (round caps), a filled circle the
    pixels within the radius of the centre, a filled rectangle the pixels
    between the two corners, and the grey value is
    0.114 B + 0.587 G + 0.299 R, rounded. *)

Module Raster.

(** Overwrite with [col] the pixels (x, y) picked by [inside]. *)
Definition paint (inside : Z → Z → bool) (col : pixel) (img : image)
  : image :=
  imap (λ r row,
    imap (λ c px, if inside (Z.of_nat c) (Z.of_nat r) then col else px) row)
    img.

(** Is (x, y) within [t / 2] of the segment from [p] to [q]?  Squared
    distances, scaled so that the test stays in the integers. *)
Definition near_segment (p q : point) (t : Z) (x y : Z) : bool :=
  let '(ax, ay) := p in
  let '(ex, ey) := q in
  let '(dx, dy) := (ex - ax, ey - ay) in
  let '(px, py) := (x - ax, y - ay) in
  let len2 := dx * dx + dy * dy in
  let dot := px * dx + py * dy in
  if bool_decide (dot ≤ 0) then
    bool_decide (4 * (px * px + py * py) ≤ t * t)
  else if bool_decide (len2 ≤ dot) then
    bool_decide (4 * ((x - ex) * (x - ex) + (y - ey) * (y - ey)) ≤ t * t)
  else
    bool_decide (4 * ((px * px + py * py) * len2 - dot * dot) ≤ t * t * len2).

Definition line (img : image) (p q : point) (col : pixel) (t : Z) : image :=
  paint (near_segment p q t) col img.

Definition rectangle (img : image) (p q : point) (col : pixel) : image :=
  paint (λ x y, bool_decide (p.1 `min` q.1 ≤ x ≤ p.1 `max` q.1
                             ∧ p.2 `min` q.2 ≤ y ≤ p.2 `max` q.2))
    col img.

Definition circle (img : image) (c : point) (r : Z) (col : pixel) : image :=
  paint (λ x y, bool_decide ((x - c.1) * (x - c.1) + (y - c.2) * (y - c.2)
                             ≤ r * r))
    col img.

Definition gray (p : pixel) : Z :=
  (114 * p.1.1 + 587 * p.1.2 + 299 * p.2 + 500) `div` 1000.

Definition cv2 : Cv2 := {|
  cv2_line := line;
  cv2_rectangle := rectangle;
  cv2_circle := circle;
  cv2_gray := gray;
|}.

End Raster.

(** ** Properties of images *)

(** Every channel of every pixel is a uint8 value. *)
Definition uint8 (v : Z) : Prop := 0 ≤ v < 256.
Definition uint8_pixel (p : pixel) : Prop :=
  uint8 p.1.1 ∧ uint8 p.1.2 ∧ uint8 p.2.
Definition uint8_image (a : image) : Prop := Forall (Forall uint8_pixel) a.

(** Every pixel is background. *)
Definition background (a : image) : Prop :=
  Forall (Forall (λ p : pixel, p = (0, 0, 0))) a.

(** All rows have [w] columns. *)
Definition rectangular (w : nat) (a : image) : Prop :=
  Forall (λ row, length row = w) a.

(** The integer [fingersUp] appends for a finger. *)
Definition bit (b : bool) : Z := if b then 1 else 0.

(** The pixel in row [r] and column [c], [a[r][c]]. *)
Definition pixel_at (a : image) (r c : nat) : option pixel :=
  row ← a !! r; row !! c.

(** What OpenCV's drawing calls promise: the array keeps its shape and
    every pixel either keeps its value or takes the colour drawn. *)
Definition draws_in (col : pixel) (old new : image) : Prop :=
  Forall2 (Forall2 (λ o n : pixel, n = o ∨ n = col)) old new.
Definition line_draws_in `{cv : Cv2} : Prop :=
  ∀ img p q col t, draws_in col img (cv2_line img p q col t).

(** ** Concrete frames *)

Module Scenes.
Import VirtualPainter.

(** A landmark list as [getLandmarkPositions] builds it: the points
    numbered from 0. *)
Definition snapshot (pts : list point) : list landmark :=
  imap (λ i p, (Z.of_nat i, p.1, p.2)) pts.

(** A hand of 21 landmarks with the index fingertip at [tip8], the middle
    fingertip at [tip12] and each finger raised or not as asked: the joint
    two landmarks before a raised tip lies 40 pixels below it, and the
    thumb (left of the pinky) is raised when it is left of landmark 3. *)
Definition joint (up : bool) (tip : point) : point :=
  (tip.1, if up then tip.2 + 40 else tip.2 - 40).
Definition pose (thumb index middle ring pinky : bool) (tip8 tip12 : point)
  : list landmark :=
  snapshot
    [ (600, 600); (560, 500); (540, 400);
      (if thumb then 540 else 460, 300); (500, 300);
      (tip8.1, tip8.2 + 80); joint index tip8; (tip8.1, tip8.2 + 20); tip8;
      (tip12.1, tip12.2 + 80); joint middle tip12; (tip12.1, tip12.2 + 20);
      tip12;
      (800, 380); joint ring (800, 300); (800, 320); (800, 300);
      (1000, 380); joint pinky (1000, 300); (1000, 320); (1000, 300) ].

Definition RED : pixel := (0, 0, 255).
Definition BLUE : pixel := (255, 0, 0).
Definition GREEN : pixel := (0, 255, 0).
Definition BLACK : pixel := (0, 0, 0).

(** Four 2x3 header images and an 8x8 camera frame. *)
Definition plain (rows cols : nat) (p : pixel) : image :=
  replicate rows (replicate cols p).
Definition overlay_list : list image :=
  [ plain 2 3 (10, 20, 30); plain 2 3 (40, 50, 60);
    plain 2 3 (70, 80, 90); plain 2 3 (15, 25, 35) ].
Definition camera : image := plain 8 8 (100, 110, 120).

(** The state at start-up, on an 8x8 and on a 32x32 canvas. *)
Definition start (side : nat) : State :=
  mkState (np_zeros side side) 0 0 (plain 2 3 (10, 20, 30)) RED.
(** In the middle of a stroke whose last point is (100, 100). *)
Definition mid_stroke : State :=
  mkState (np_zeros 8 8) 100 100 (plain 2 3 (10, 20, 30)) RED.

Definition idle_hand : list landmark :=
  pose false false false false false (100, 100) (200, 200).
Definition open_hand : list landmark :=
  pose true true true true true (100, 50) (200, 200).
Definition draw_at (p : point) : list landmark :=
  pose false true false false false p (200, 200).
Definition select_at (p : point) : list landmark :=
  pose false true true false false p (200, 200).

(** An 8x8 canvas with one red pixel in the corner. *)
Definition dotted : image :=
  (RED :: replicate 7 BLACK) :: replicate 7 (replicate 8 BLACK).

Definition dotted_state : State :=
  mkState dotted 0 0 (plain 2 3 (10, 20, 30)) RED.

(** The frame displayed for [camera], the first header and [dotted]. *)
Definition merged_dotted : image :=
  match merge (cv:=Raster.cv2) camera (plain 2 3 (10, 20, 30)) dotted with
  | Ok out => out
  | Raise _ => []
  end.

End Scenes.

(** ** Landmark detection, HandTrackingModule.py lines 99-128 *)

Module Detection.
Import HandDetector.

Section Positions.
(** Mediapipe reports each landmark by two Python floats; [to_pixel v n]
    stands for [int(v * n)], and [cv2_ring] for the outlined
    [cv2.circle(img, centre, radius, color, thickness)]. *)
Variable float : Type.
Variable to_pixel : float → nat → Z.
Variable cv2_ring : image → point → Z → pixel → Z → image.

(** The loop of lines 119-125 from landmark number [landmarkID] on: the
    list built so far and the image drawn on so far. *)
Fixpoint positions (width height : nat) (draw : bool)
    (landmarks : list (float * float)) (landmarkID : nat)
    (lmList : list landmark) (img : image) : list landmark * image :=
  match landmarks with
  | [] => (lmList, img)
  | lm :: rest =>
      let '(cx, cy) := (to_pixel lm.1 width, to_pixel lm.2 height) in
      let lmList := lmList ++ [(Z.of_nat landmarkID, cx, cy)] in
      let img := if draw then cv2_ring img (cx, cy) 10 (255, 0, 0) 2
                 else img in
      positions width height draw rest (S landmarkID) lmList img
  end.

(** [getLandmarkPositions(img, handNo, draw)], lines 113-128, for a
    non-negative [handNo]: the list returned (and kept in
    [self.landmarkList]) and the image.  [multi_hand_landmarks] is [None]
    or the list of the hands found, each the list of its landmarks. *)
Definition getLandmarkPositions
    (multi_hand_landmarks : option (list (list (float * float))))
    (img : image) (handNo : nat) (draw : bool)
  : result (list landmark * image) :=
  let '(height, width) := shape img in
  match multi_hand_landmarks with
  | Some (hand :: hands) =>
      myHand ← getitem (hand :: hands) handNo;
      Ok (positions width height draw myHand 0 [] img)
  | _ => Ok ([], img)
  end.

End Positions.
End Detection.

(** ** The toolbar of VirtualPainter.py lines 50-61 as a table *)

Module Toolbar.

(** The number of the region an x coordinate falls in. *)
Definition region_of (x1 : Z) : option nat :=
  if bool_decide (60 < x1 < 230) then Some 0%nat
  else if bool_decide (380 < x1 < 550) then Some 1%nat
  else if bool_decide (700 < x1 < 870) then Some 2%nat
  else if bool_decide (1030 < x1 < 1250) then Some 3%nat
  else None.

(** The colour each region sets. *)
Definition colours : list pixel :=
  [(0, 0, 255); (255, 0, 0); (0, 255, 0); (0, 0, 0)].

End Toolbar.

(** ** One round of the main loop from the detection on *)

Module MainLoop.
Import VirtualPainter Detection.

Section Round.
Context `{cv : Cv2}.
Variable overlay_list : list image.
Variable float : Type.
Variable to_pixel : float → nat → Z.
Variable cv2_ring : image → point → Z → pixel → Z → image.

(** Lines 38-80: [img] is the flipped camera frame with the hand drawn on
    it, [multi_hand_landmarks] what the pose model found in it. *)
Definition round (multi_hand_landmarks : option (list (list (float * float))))
    (img : image) (st : State) : result (State * image) :=
  '(landmark_list, img) ←
    getLandmarkPositions float to_pixel cv2_ring multi_hand_landmarks img 0
      false;
  frame overlay_list landmark_list img st.

End Round.

(** Line 90, [cv2.waitKey(1) & 0xFF == ord("q")]: does the key code end the
    loop? *)
Definition quit_key (key : Z) : bool := bool_decide (Z.land key 255 = 113).

End MainLoop.

(** ** Hands and strokes *)

(** A hand moved and stretched: x becomes [kx * x + dx], y becomes
    [ky * y + dy]; [kx = -1] mirrors it as [cv2.flip(img, 1)] does. *)
Definition affine (kx dx ky dy : Z) (lms : list landmark) : list landmark :=
  (λ l : landmark, (l.1.1, kx * lm_x l + dx, ky * lm_y l + dy)) <$> lms.

(** The landmark list of a drawing frame (index finger up, middle finger
    down) whose index fingertip is at [p]. *)
Definition drawing_at (lms : list landmark) (p : point) : Prop :=
  ∃ fs index middle,
    HandDetector.fingersUp lms = Ok fs
    ∧ fs !! 1%nat = Some index ∧ fs !! 2%nat = Some middle
    ∧ VirtualPainter.truthy index = true
    ∧ VirtualPainter.truthy middle = false
    ∧ (HandDetector.X lms 8, HandDetector.Y lms 8) = p.

(** The segments from [from] through the points [pts], drawn in turn. *)
Fixpoint polyline `{cv : Cv2} (canvas : image) (from : point)
    (pts : list point) (col : pixel) : image :=
  match pts with
  | [] => canvas
  | p :: pts' =>
      polyline
        (cv2_line canvas from p col VirtualPainter.POINTER_THICKNESS)
        p pts' col
  end.

(** Header and colour belong to the same toolbar region. *)
Definition tool_paired (overlay_list : list image)
    (st : VirtualPainter.State) : Prop :=
  ∃ i c,
    overlay_list !! i = Some (VirtualPainter.header st)
    ∧ Toolbar.colours !! i = Some c
    ∧ VirtualPainter.draw_color st = c.

(** The drawing calls keep the shape of the array they draw on. *)
Definition keeps_shape `{cv : Cv2} : Prop :=
  (∀ img p q col t, same_shape img (cv2_line img p q col t) = true)
  ∧ (∀ img p q col, same_shape img (cv2_rectangle img p q col) = true)
  ∧ (∀ img c r col, same_shape img (cv2_circle img c r col) = true).

(** An array of [h] rows and [w] columns. *)
Definition sized (h w : nat) (a : image) : Prop :=
  length a = h ∧ rectangular w a.

(** An array that fits into [h] rows and [w] columns. *)
Definition fits (h w : nat) (a : image) : Prop :=
  ∃ hh hw, sized hh hw a ∧ (hh ≤ h)%nat ∧ (hw ≤ w)%nat.

(** Every hand the pose model reports has the 21 landmarks of Mediapipe. *)
Definition mediapipe_hands {float : Type}
    (multi_hand_landmarks : option (list (list (float * float)))) : Prop :=
  match multi_hand_landmarks with
  | None => True
  | Some hands => Forall (λ hand, length hand = 21%nat) hands
  end.

(** ** More concrete frames *)

Module Footage.
Import VirtualPainter Scenes.

(** Stand-ins for the floats of the pose model: a coordinate in
    thousandths of the frame, and [int(v * n)] cutting towards zero. *)
Definition permille_to_pixel (v : Z) (n : nat) : Z :=
  (v * Z.of_nat n) `quot` 1000.

(** An outlined circle: the pixels whose distance from the centre is within
    the thickness of the radius. *)
Definition ring (img : image) (c : point) (r : Z) (col : pixel) (t : Z)
  : image :=
  Raster.paint
    (λ x y, let d := (x - c.1) * (x - c.1) + (y - c.2) * (y - c.2) in
            bool_decide ((r - t) * (r - t) ≤ d ≤ (r + t) * (r + t)))
    col img.

(** Three landmarks, one of them left of and below the frame. *)
Definition three_landmarks : list (Z * Z) :=
  [(500, 250); (0, 1000); (-125, 1500)].

(** A hand of 21 landmarks in thousandths. *)
Definition still_hand : list (Z * Z) :=
  (λ l : landmark, (lm_x l, lm_y l)) <$> open_hand.

(** Three drawing frames in a row. *)
Definition stroke_frames : list (list landmark * image) :=
  [(draw_at (5, 5), camera); (draw_at (9, 7), camera);
   (draw_at (2, 30), camera)].

(** A selecting frame in the second toolbar region between two drawing
    frames. *)
Definition mixed_frames : list (list landmark * image) :=
  [(draw_at (5, 5), camera); (select_at (400, 50), camera);
   (draw_at (9, 7), camera)].

(** In the middle of a stroke on the dotted canvas. *)
Definition dotted_mid_stroke : State :=
  mkState dotted 100 100 (plain 2 3 (10, 20, 30)) RED.

(** [camera] with [dotted] composited over it. *)
Definition composited : image :=
  match merge_canvas (cv:=Raster.cv2) camera dotted with
  | Ok out => out
  | Raise _ => []
  end.

End Footage.

(** * Proofs *)

Import HandDetector VirtualPainter.

(** ** Indexing *)

Lemma getitem_lt {A} `{Inhabited A} (l : list A) i :
  (i < length l)%nat → getitem l i = Ok (l !!! i).
Proof.
  intros Hi. unfold getitem. by rewrite (list_lookup_lookup_total_lt l i Hi).
Qed.

Lemma getitem_ge {A} (l : list A) i :
  (length l ≤ i)%nat → getitem l i = Raise IndexError.
Proof. intros Hi. unfold getitem. by rewrite lookup_ge_None_2. Qed.

Lemma getitem_Raise {A} (l : list A) i e :
  getitem l i = Raise e → e = IndexError.
Proof. unfold getitem. destruct (l !! i); congruence. Qed.

Lemma fingersUp_eq (lms : list landmark) :
  (21 ≤ length lms)%nat →
  fingersUp lms =
    Ok [ bit (if bool_decide (X lms 4 < X lms 20)
              then bool_decide (X lms 4 < X lms 3)
              else bool_decide (X lms 4 > X lms 3));
         bit (bool_decide (Y lms 8 < Y lms 6));
         bit (bool_decide (Y lms 12 < Y lms 10));
         bit (bool_decide (Y lms 16 < Y lms 14));
         bit (bool_decide (Y lms 20 < Y lms 18)) ].
Proof.
  intros Hlen. unfold fingersUp, thumbUp, fingerUp, X, Y. cbn.
  rewrite !getitem_lt by lia. cbn.
  repeat case_bool_decide; reflexivity.
Qed.

Lemma fingersUp_short (lms : list landmark) :
  (length lms < 21)%nat → fingersUp lms = Raise IndexError.
Proof.
  intros Hlen. unfold fingersUp, thumbUp. cbn.
  destruct (getitem lms 4) as [a|e] eqn:E; cbn.
  - by rewrite (getitem_ge lms 20) by lia.
  - by rewrite (getitem_Raise _ _ _ E).
Qed.

(** C6: for every snapshot of 21 landmarks [fingersUp] returns five
    entries, each 0 or 1, where the entry of a non-thumb finger with tip
    [t] in 8, 12, 16, 20 is 1 exactly when [y(t) < y(t - 2)] (strictly, so a
    tie counts as down), and the thumb's entry is 1 exactly when
    [x(4) < x(3)] if [x(4) < x(20)], and exactly when [x(4) > x(3)]
    otherwise. *)
Theorem fingersUp_classifies (lms : list landmark) :
  length lms = 21%nat →
  ∃ thumb index middle ring pinky,
    fingersUp lms = Ok [thumb; index; middle; ring; pinky]
    ∧ Forall (λ v, v = 0 ∨ v = 1) [thumb; index; middle; ring; pinky]
    ∧ (index = 1 ↔ Y lms 8 < Y lms 6)
    ∧ (middle = 1 ↔ Y lms 12 < Y lms 10)
    ∧ (ring = 1 ↔ Y lms 16 < Y lms 14)
    ∧ (pinky = 1 ↔ Y lms 20 < Y lms 18)
    ∧ (X lms 4 < X lms 20 → (thumb = 1 ↔ X lms 4 < X lms 3))
    ∧ (¬ X lms 4 < X lms 20 → (thumb = 1 ↔ X lms 4 > X lms 3)).
Proof.
  intros Hlen. do 5 eexists. split; [apply fingersUp_eq; lia|].
  split.
  { unfold bit. repeat first [apply Forall_nil | apply Forall_cons];
      repeat case_bool_decide; auto. }
  unfold bit. repeat split; repeat case_bool_decide; intros; try done; lia.
Qed.


(** ** The size of the canvas *)

Lemma sized_lengths (a : image) h w :
  sized h w a ↔ length <$> a = replicate h w.
Proof.
  unfold sized, rectangular. revert h.
  induction a as [|row a IH]; intros h.
  - split; [by intros [<- _]|]. intros Heq.
    destruct h; [by split|done].
  - destruct h as [|h]; [split; [by intros [? _]|done]|]. split.
    + intros [Hl Hr]. apply Forall_cons_1 in Hr as [Hrow Hr]. cbn.
      f_equal; [done|]. apply IH. split; [cbn in Hl; lia|done].
    + intros Heq. cbn in Heq. injection Heq as Hrow Heq.
      apply IH in Heq as [Hl Hr]. split; [cbn; lia|].
      by apply Forall_cons_2.
Qed.

Lemma np_zeros_sized h w : sized h w (np_zeros h w).
Proof.
  apply sized_lengths. unfold np_zeros.
  by rewrite fmap_replicate, length_replicate.
Qed.

Lemma clear_canvas_sized st h w :
  sized h w (img_canvas st) → sized h w (img_canvas (clear_canvas st)).
Proof.
  unfold clear_canvas, shape. destruct (img_canvas st) as [|row rest] eqn:Hc.
  - intros [<- _]. cbn. split; [done|constructor].
  - intros [<- Hr]. apply Forall_cons_1 in Hr as [<- _].
    cbn [img_canvas set_canvas]. apply np_zeros_sized.
Qed.

Lemma clear_canvas_shape st :
  img_canvas (clear_canvas st) =
    np_zeros (shape (img_canvas st)).1 (shape (img_canvas st)).2
  ∧ shape (img_canvas (clear_canvas st)) = shape (img_canvas st).
Proof.
  unfold clear_canvas. destruct (shape (img_canvas st)) as [rows cols] eqn:Hs.
  cbn. split; [done|].
  unfold shape in *. destruct (img_canvas st) as [|row rest].
  - by injection Hs as <- <-.
  - injection Hs as <- <-. cbn. by rewrite !length_replicate.
Qed.

Section Gestures.
Context `{cv : Cv2}.
Local Arguments clear_canvas : simpl never.
Local Arguments draw_mode : simpl never.
Variable overlay_list : list image.

Lemma fingersUp_Ok (lms : list landmark) fs :
  fingersUp lms = Ok fs →
  (21 ≤ length lms)%nat
  ∧ ∃ thumb index middle ring pinky,
      fs = [thumb; index; middle; ring; pinky]
      ∧ Forall (λ v, v = 0 ∨ v = 1) fs.
Proof.
  intros Hfs. destruct (decide (21 ≤ length lms)%nat) as [Hlen|Hlen].
  - split; [done|]. rewrite fingersUp_eq in Hfs by done.
    injection Hfs as <-. do 5 eexists. split; [done|].
    unfold bit. repeat first [apply Forall_nil | apply Forall_cons];
      repeat case_bool_decide; auto.
  - rewrite fingersUp_short in Hfs by lia. done.
Qed.

(** The gesture handler once the fingers are classified. *)
Lemma handle_gestures_detected (lms : list landmark) st img
    thumb index middle ring pinky :
  fingersUp lms = Ok [thumb; index; middle; ring; pinky] →
  handle_gestures overlay_list lms st img =
    '(st, img) ←
      (if truthy index && truthy middle then
         selection_mode overlay_list (X lms 8) (Y lms 8) (X lms 12) (Y lms 12)
           st img
       else if truthy index && negb (truthy middle) then
         Ok (draw_mode (X lms 8) (Y lms 8) st img)
       else Ok (st, img));
    if forallb (λ x, bool_decide (x >= 1)) [thumb; index; middle; ring; pinky]
    then Ok (clear_canvas st, img) else Ok (st, img).
Proof.
  intros Hfs. destruct (fingersUp_Ok _ _ Hfs) as [Hlen _].
  unfold handle_gestures. rewrite bool_decide_eq_true_2 by lia.
  rewrite Hfs. cbn. rewrite !getitem_lt by lia. reflexivity.
Qed.

Lemma background_np_zeros rows cols : background (np_zeros rows cols).
Proof.
  unfold background, np_zeros.
  apply Forall_replicate, Forall_replicate. reflexivity.
Qed.

(** At start-up the canvas is blank and there is no last point. *)
Lemma initial_blank st :
  initial overlay_list = Ok st →
  background (img_canvas st)
  ∧ last_x st = 0 ∧ last_y st = 0 ∧ draw_color st = (0, 0, 255).
Proof.
  unfold initial, getitem. destruct (overlay_list !! 0%nat); [|done].
  intros [= <-]. split; [apply background_np_zeros | done].
Qed.

Lemma clear_canvas_spec st :
  background (img_canvas (clear_canvas st))
  ∧ last_x (clear_canvas st) = last_x st
  ∧ last_y (clear_canvas st) = last_y st
  ∧ header (clear_canvas st) = header st
  ∧ draw_color (clear_canvas st) = draw_color st.
Proof.
  unfold clear_canvas. destruct (shape (img_canvas st)). cbn.
  split; [apply background_np_zeros|]. done.
Qed.

Lemma select_tool_last x1 st st' :
  select_tool overlay_list x1 st = Ok st' →
  last_x st' = last_x st ∧ last_y st' = last_y st
  ∧ img_canvas st' = img_canvas st.
Proof.
  unfold select_tool, getitem. intros Hsel.
  repeat case_bool_decide;
    repeat match type of Hsel with
           | context [overlay_list !! ?i] => destruct (overlay_list !! i)
           end; simplify_eq/=; done.
Qed.

Lemma select_tool_total x1 st :
  (4 ≤ length overlay_list)%nat → ∃ st', select_tool overlay_list x1 st = Ok st'.
Proof.
  intros Hlen. unfold select_tool.
  repeat case_bool_decide; rewrite ?getitem_lt by lia; cbn; eauto.
Qed.

(** C1 (as amended): in a frame with a hand detected whose index finger is
    down (the Idle mode), gesture handling changes nothing: the last point,
    like the canvas, the colour and the header, is what it was before the
    frame; it is not reset. *)
Theorem idle_frame_keeps_state (lms : list landmark) st img fs :
  fingersUp lms = Ok fs →
  fs !! 1%nat = Some 0 →
  handle_gestures overlay_list lms st img = Ok (st, img).
Proof.
  intros Hfs Hix.
  destruct (fingersUp_Ok _ _ Hfs) as (_ & th & ix & mi & ri & pk & -> & _).
  simplify_eq/=. rewrite (handle_gestures_detected _ _ _ _ _ _ _ _ Hfs).
  cbn. by rewrite andb_false_r.
Qed.

(** C2: in a frame with a hand detected and all five entries of the finger
    vector true, gesture handling ends with every pixel of the canvas at
    background and with the last point at its null value (0, 0), wherever
    the fingertips are; the header list holds the four toolbar images.  The
    canvas is the array of zeros of the old canvas's shape: it keeps its
    shape, and its rows and columns when it is rectangular. *)
Theorem all_fingers_up_clears (lms : list landmark) st img fs :
  (4 ≤ length overlay_list)%nat →
  fingersUp lms = Ok fs →
  Forall (λ v, truthy v = true) fs →
  ∃ st' img',
    handle_gestures overlay_list lms st img = Ok (st', img')
    ∧ background (img_canvas st')
    ∧ last_x st' = 0 ∧ last_y st' = 0
    ∧ img_canvas st' =
        np_zeros (shape (img_canvas st)).1 (shape (img_canvas st)).2
    ∧ shape (img_canvas st') = shape (img_canvas st)
    ∧ ∀ h w, sized h w (img_canvas st) → sized h w (img_canvas st').
Proof.
  intros Hov Hfs Hup.
  destruct (fingersUp_Ok _ _ Hfs) as (_ & th & ix & mi & ri & pk & -> & H01).
  rewrite (handle_gestures_detected _ _ _ _ _ _ _ _ Hfs).
  assert (Hall : forallb (λ x, bool_decide (x >= 1)) [th; ix; mi; ri; pk] = true).
  { repeat match goal with
           | H : Forall _ (_ :: _) |- _ => apply Forall_cons_1 in H as [? H]
           end.
    by repeat match goal with
              | H : _ = 0 ∨ _ = 1 |- _ => destruct H as [-> | ->]
              end. }
  rewrite Hall.
  apply Forall_cons_1 in Hup as [_ Hup].
  apply Forall_cons_1 in Hup as [Hix Hup].
  apply Forall_cons_1 in Hup as [Hmi _]. rewrite Hix, Hmi. cbn.
  unfold selection_mode.
  destruct (select_tool_total (X lms 8) (set_last 0 0 st) Hov) as [st1 Hsel].
  case_bool_decide.
  - rewrite Hsel. exists (clear_canvas st1). eexists. split; [reflexivity|].
    apply select_tool_last in Hsel as (Hx & Hy & Hcan). cbn in Hcan.
    destruct (clear_canvas_spec st1) as (? & -> & -> & _).
    destruct (clear_canvas_shape st1) as [Hzeros Hshape].
    rewrite Hcan in Hzeros, Hshape. split_and!; [done..|].
    intros h w Hsized. apply clear_canvas_sized. by rewrite Hcan.
  - exists (clear_canvas (set_last 0 0 st)). eexists.
    split; [reflexivity|].
    destruct (clear_canvas_spec (set_last 0 0 st)) as (? & -> & -> & _).
    destruct (clear_canvas_shape (set_last 0 0 st)) as [Hzeros Hshape].
    split_and!; [done..|].
    intros h w Hsized. by apply clear_canvas_sized.
Qed.

(** C8: with an empty landmark list gesture handling is skipped: canvas,
    colour, header and last point (and the frame) come out unchanged, and
    the frame shown is the merge of the unchanged state. *)
Theorem no_hand_keeps_state st img :
  handle_gestures overlay_list [] st img = Ok (st, img)
  ∧ frame overlay_list [] img st =
      (out ← merge img (header st) (img_canvas st); Ok (st, out)).
Proof. split; reflexivity. Qed.


Lemma continueStroke_tool x1 y1 st :
  header (continueStroke x1 y1 st) = header st
  ∧ draw_color (continueStroke x1 y1 st) = draw_color st.
Proof. unfold continueStroke. by destruct (_ && _). Qed.

Lemma continueStroke_fresh x1 y1 st :
  last_x st = 0 → last_y st = 0 →
  continueStroke x1 y1 st =
    mkState
      (cv2_line (img_canvas st) (x1, y1) (x1, y1) (draw_color st)
         POINTER_THICKNESS)
      x1 y1 (header st) (draw_color st).
Proof.
  intros Hx Hy. unfold continueStroke.
  by rewrite !bool_decide_eq_true_2 by done.
Qed.

Lemma continueStroke_next x1 y1 st :
  (last_x st, last_y st) ≠ (0, 0) →
  continueStroke x1 y1 st =
    mkState
      (cv2_line (img_canvas st) (last_x st, last_y st) (x1, y1)
         (draw_color st) POINTER_THICKNESS)
      x1 y1 (header st) (draw_color st).
Proof.
  intros Hne. unfold continueStroke.
  destruct (bool_decide (last_x st = 0)) eqn:Ex,
           (bool_decide (last_y st = 0)) eqn:Ey; try reflexivity.
  apply bool_decide_eq_true in Ex, Ey. congruence.
Qed.

Lemma select_tool_changes x1 st st' :
  select_tool overlay_list x1 st = Ok st' →
  (draw_color st' = draw_color st ∧ header st' = header st)
  ∨ 60 < x1 < 230 ∨ 380 < x1 < 550 ∨ 700 < x1 < 870 ∨ 1030 < x1 < 1250.
Proof.
  unfold select_tool. intros Hsel.
  repeat case_bool_decide; simplify_eq/=; auto.
Qed.

Lemma selecting_frame (lms : list landmark) st img fs index middle :
  fingersUp lms = Ok fs →
  fs !! 1%nat = Some index → fs !! 2%nat = Some middle →
  truthy index = true → truthy middle = true →
  handle_gestures overlay_list lms st img =
    '(st, img) ← selection_mode overlay_list (X lms 8) (Y lms 8)
                   (X lms 12) (Y lms 12) st img;
    if forallb (λ x, bool_decide (x >= 1)) fs
    then Ok (clear_canvas st, img) else Ok (st, img).
Proof.
  intros Hfs Hix Hmi Ti Tm.
  destruct (fingersUp_Ok _ _ Hfs) as (_ & th & ix & mi & ri & pk & -> & _).
  simplify_eq/=. rewrite (handle_gestures_detected _ _ _ _ _ _ _ _ Hfs).
  by rewrite Ti, Tm.
Qed.

Lemma drawing_frame (lms : list landmark) st img fs index middle :
  fingersUp lms = Ok fs →
  fs !! 1%nat = Some index → fs !! 2%nat = Some middle →
  truthy index = true → truthy middle = false →
  handle_gestures overlay_list lms st img =
    Ok (draw_mode (X lms 8) (Y lms 8) st img).
Proof.
  intros Hfs Hix Hmi Ti Tm.
  destruct (fingersUp_Ok _ _ Hfs) as (_ & th & ix & mi & ri & pk & -> & H01).
  simplify_eq/=. rewrite (handle_gestures_detected _ _ _ _ _ _ _ _ Hfs).
  rewrite Ti, Tm. cbn.
  assert (middle = 0) as -> by (unfold truthy in Tm; lia).
  cbn. by rewrite !andb_false_r.
Qed.

(** C7: the colour and the header change only in a frame where index and
    middle finger are up and the index fingertip has [y < 100] and [x] in
    one of the four toolbar ranges; with index and middle up and the index
    fingertip at (100, 50) they become header 0 and colour (0, 0, 255), and
    at (400, 50) header 1 and colour (255, 0, 0). *)
Theorem tool_changes_only_by_selection :
  (∀ (lms : list landmark) st img st' img',
     handle_gestures overlay_list lms st img = Ok (st', img') →
     (draw_color st' = draw_color st ∧ header st' = header st)
     ∨ (∃ fs index middle,
          fingersUp lms = Ok fs
          ∧ fs !! 1%nat = Some index ∧ fs !! 2%nat = Some middle
          ∧ truthy index = true ∧ truthy middle = true
          ∧ Y lms 8 < 100
          ∧ (60 < X lms 8 < 230 ∨ 380 < X lms 8 < 550
             ∨ 700 < X lms 8 < 870 ∨ 1030 < X lms 8 < 1250)))
  ∧ (∀ (lms : list landmark) st img fs index middle h0,
       fingersUp lms = Ok fs →
       fs !! 1%nat = Some index → fs !! 2%nat = Some middle →
       truthy index = true → truthy middle = true →
       X lms 8 = 100 → Y lms 8 = 50 →
       overlay_list !! 0%nat = Some h0 →
       ∃ st' img',
         handle_gestures overlay_list lms st img = Ok (st', img')
         ∧ header st' = h0 ∧ draw_color st' = (0, 0, 255))
  ∧ (∀ (lms : list landmark) st img fs index middle h1,
       fingersUp lms = Ok fs →
       fs !! 1%nat = Some index → fs !! 2%nat = Some middle →
       truthy index = true → truthy middle = true →
       X lms 8 = 400 → Y lms 8 = 50 →
       overlay_list !! 1%nat = Some h1 →
       ∃ st' img',
         handle_gestures overlay_list lms st img = Ok (st', img')
         ∧ header st' = h1 ∧ draw_color st' = (255, 0, 0)).
Proof.
  split; [|split].
  - intros lms st img st' img' Hstep.
    destruct (fingersUp lms) as [fs|e] eqn:Hfs.
    2: { unfold handle_gestures in Hstep. rewrite Hfs in Hstep.
         case_bool_decide; simplify_eq/=. auto. }
    destruct (fingersUp_Ok _ _ Hfs) as (_ & th & ix & mi & ri & pk & -> & _).
    rewrite (handle_gestures_detected _ _ _ _ _ _ _ _ Hfs) in Hstep.
    remember (forallb (λ x, bool_decide (x >= 1)) [th; ix; mi; ri; pk])
      as all_up eqn:Hall.
    assert (Hclear : ∀ (s : State) (i : image),
      (if all_up then Ok (clear_canvas s, i) else Ok (s, i))
        = Ok (st', img') →
      draw_color st' = draw_color s ∧ header st' = header s).
    { intros s i Hc. destruct (clear_canvas_spec s) as (_ & _ & _ & ? & ?).
      destruct all_up; simplify_eq/=; auto. }
    destruct (truthy ix) eqn:Ti, (truthy mi) eqn:Tm; cbn in Hstep;
      try (apply Hclear in Hstep as [-> ->]; by left; split).
    2: { destruct (draw_mode _ _ _ _) as [st1 img1] eqn:Hdraw.
         apply Hclear in Hstep as [-> ->]. left.
         unfold draw_mode in Hdraw. simplify_eq.
         destruct (continueStroke_tool (X lms 8) (Y lms 8) st). done. }
    unfold selection_mode in Hstep.
    destruct (bool_decide (Y lms 8 < 100)) eqn:Hy; cbn in Hstep;
      [|apply Hclear in Hstep as [-> ->]; by left; split].
    apply bool_decide_eq_true in Hy.
    destruct (select_tool _ _ _) as [st1|] eqn:Hsel; [|by simplify_eq/=].
    cbn in Hstep. apply Hclear in Hstep as [-> ->].
    apply select_tool_changes in Hsel as [?|Hx]; [by left|].
    right. exists [th; ix; mi; ri; pk], ix, mi. by repeat split.
  - intros lms st img fs ix mi h0 Hfs Hix Hmi Ti Tm Hx Hy Hov.
    rewrite (selecting_frame _ _ _ _ _ _ Hfs Hix Hmi Ti Tm).
    unfold selection_mode, select_tool, getitem. rewrite Hx, Hy, Hov. cbn.
    destruct (forallb _ _); do 2 eexists; (split; [reflexivity|]).
    + destruct (clear_canvas_spec (set_tool h0 (0, 0, 255) (set_last 0 0 st)))
        as (_ & _ & _ & -> & ->). done.
    + done.
  - intros lms st img fs ix mi h1 Hfs Hix Hmi Ti Tm Hx Hy Hov.
    rewrite (selecting_frame _ _ _ _ _ _ Hfs Hix Hmi Ti Tm).
    unfold selection_mode, select_tool, getitem. rewrite Hx, Hy, Hov. cbn.
    destruct (forallb _ _); do 2 eexists; (split; [reflexivity|]).
    + destruct (clear_canvas_spec (set_tool h1 (255, 0, 0) (set_last 0 0 st)))
        as (_ & _ & _ & -> & ->). done.
    + done.
Qed.

(** C10: the null last point is the coordinate (0, 0).  Whenever the
    stored last point is (0, 0), a drawing frame calls [cv2.line] from the
    fingertip to itself, with no segment to an earlier point, and stores the
    fingertip; and a stroke step at the pixel (0, 0) stores (0, 0) again, so
    the frame after it starts anew as well. *)
Theorem origin_is_no_last_point (lms : list landmark) st img fs index middle :
  fingersUp lms = Ok fs →
  fs !! 1%nat = Some index → fs !! 2%nat = Some middle →
  truthy index = true → truthy middle = false →
  last_x st = 0 → last_y st = 0 →
  handle_gestures overlay_list lms st img =
    Ok (mkState
          (cv2_line (img_canvas st) (X lms 8, Y lms 8) (X lms 8, Y lms 8)
             (draw_color st) POINTER_THICKNESS)
          (X lms 8) (Y lms 8) (header st) (draw_color st),
        cv2_circle img (X lms 8, Y lms 8) POINTER_THICKNESS (draw_color st))
  ∧ (∀ st0, last_x (continueStroke 0 0 st0) = 0
            ∧ last_y (continueStroke 0 0 st0) = 0).
Proof.
  intros Hfs Hix Hmi Ti Tm Hx Hy. split; [|done].
  rewrite (drawing_frame _ _ _ _ _ _ Hfs Hix Hmi Ti Tm).
  unfold draw_mode. by rewrite continueStroke_fresh.
Qed.

(** C3 (as amended): [continueStroke] with a null last point draws the
    degenerate segment from the point to itself onto the canvas and records
    the point; when that first point is not the pixel (0, 0), the very next
    call draws exactly one segment from the first point to the second and
    records the second point. *)
Theorem continueStroke_first_then_next st x1 y1 x2 y2 :
  last_x st = 0 → last_y st = 0 →
  (x1, y1) ≠ (0, 0) →
  let st1 := continueStroke x1 y1 st in
  let st2 := continueStroke x2 y2 st1 in
  img_canvas st1 =
    cv2_line (img_canvas st) (x1, y1) (x1, y1) (draw_color st)
      POINTER_THICKNESS
  ∧ (last_x st1, last_y st1) = (x1, y1)
  ∧ img_canvas st2 =
      cv2_line (img_canvas st1) (x1, y1) (x2, y2) (draw_color st)
        POINTER_THICKNESS
  ∧ (last_x st2, last_y st2) = (x2, y2)
  ∧ header st2 = header st ∧ draw_color st2 = draw_color st.
Proof.
  intros Hx Hy Hne. cbn zeta.
  rewrite (continueStroke_fresh x1 y1 st Hx Hy).
  rewrite continueStroke_next by done. done.
Qed.

End Gestures.

(** ** Arrays of pixels *)

Lemma same_shape_Forall2 {A B} (a : list (list A)) (b : list (list B)) :
  same_shape a b = true ↔ Forall2 (λ r s, length r = length s) a b.
Proof.
  unfold same_shape. rewrite bool_decide_eq_true, list_eq_Forall2.
  apply Forall2_fmap.
Qed.

Lemma same_shape_fmap_r {A B C} (f : B → C) (a : list (list A))
    (b : list (list B)) :
  same_shape a (fmap (M:=list) f <$> b) = same_shape a b.
Proof.
  unfold same_shape. rewrite <-list_fmap_compose.
  assert (length ∘ fmap f <$> b = length <$> b) as ->; [|done].
  apply list_fmap_ext. intros _ row _. cbn. apply length_fmap.
Qed.

Lemma zip_with_rows_shape {A B C} (f : A → B → C) (a : list (list A))
    (b : list (list B)) :
  Forall2 (λ r s, length r = length s) a b →
  length <$> zip_with (zip_with f) a b = length <$> a.
Proof.
  induction 1 as [|r s a b Hrs _ IH]; [done|].
  cbn. rewrite IH. f_equal. rewrite length_zip_with. lia.
Qed.

Lemma rows_zip_with_fmap_r {A B C D} (f : A → C → D) (g : B → C)
    (a : list (list A)) (b : list (list B)) :
  zip_with (zip_with f) a (fmap (M:=list) g <$> b)
  = zip_with (zip_with (λ x y, f x (g y))) a b.
Proof.
  rewrite zip_with_fmap_r. apply zip_with_ext; [|done..].
  intros r s. apply zip_with_fmap_r.
Qed.

Lemma zip_with_zip_with_l {A B C} (f : A → B → A) (g : A → B → C)
    (l : list A) (k : list B) :
  zip_with g (zip_with f l k) k = zip_with (λ x y, g (f x y) y) l k.
Proof.
  revert k. induction l as [|x l IH]; intros [|y k]; cbn; [done..|].
  by rewrite IH.
Qed.

Lemma rows_zip_with_zip_with_l {A B C} (f : A → B → A) (g : A → B → C)
    (a : list (list A)) (b : list (list B)) :
  zip_with (zip_with g) (zip_with (zip_with f) a b) b
  = zip_with (zip_with (λ x y, g (f x y) y)) a b.
Proof.
  rewrite zip_with_zip_with_l. apply zip_with_ext; [|done..].
  intros r s. apply zip_with_zip_with_l.
Qed.

Lemma zip_with_fix_l {A B} (f : A → B → A) (l : list A) (k : list B) :
  Forall2 (λ x y, f x y = x) l k → zip_with f l k = l.
Proof. induction 1; cbn; congruence. Qed.

Lemma land_255 v : uint8 v → Z.land v 255 = v.
Proof.
  intros Hv. change 255 with (Z.ones 8).
  rewrite Z.land_ones by lia. apply Z.mod_small. exact Hv.
Qed.

Lemma pixel_at_zip_with (f : pixel → pixel → pixel) (a b : image) r c p q :
  pixel_at a r c = Some p → pixel_at b r c = Some q →
  pixel_at (zip_with (zip_with f) a b) r c = Some (f p q).
Proof.
  unfold pixel_at. intros Ha Hb.
  destruct (a !! r) as [ra|] eqn:Era; [|done].
  destruct (b !! r) as [rb|] eqn:Erb; [|done]. cbn in *.
  rewrite lookup_zip_with, Era. cbn. rewrite Erb. cbn.
  rewrite lookup_zip_with, Ha. cbn. by rewrite Hb.
Qed.

Lemma same_shape_pixel_at (a b : image) r c p :
  same_shape a b = true → pixel_at a r c = Some p →
  ∃ q, pixel_at b r c = Some q.
Proof.
  rewrite same_shape_Forall2. unfold pixel_at. intros Hs Ha.
  destruct (a !! r) as [ra|] eqn:Era; [|done]. cbn in Ha.
  destruct (Forall2_lookup_l _ _ _ _ _ Hs Era) as (rb & -> & Hlen). cbn.
  apply lookup_lt_is_Some. rewrite <-Hlen. by eapply lookup_lt_Some.
Qed.

Lemma draws_in_pixel col (old new : image) r c p :
  draws_in col old new → pixel_at old r c = Some p →
  ∃ p', pixel_at new r c = Some p' ∧ (p' = p ∨ p' = col).
Proof.
  unfold draws_in, pixel_at. intros Hd Ho.
  destruct (old !! r) as [ro|] eqn:Ero; [|done]. cbn in Ho.
  destruct (Forall2_lookup_l _ _ _ _ _ Hd Ero) as (rn & -> & Hrow). cbn.
  destruct (Forall2_lookup_l _ _ _ _ _ Hrow Ho) as (p' & -> & Hp). eauto.
Qed.

Lemma paint_draws_in inside col img :
  draws_in col img (Raster.paint inside col img).
Proof.
  unfold draws_in, Raster.paint. apply Forall2_lookup. intros r.
  rewrite list_lookup_imap. destruct (img !! r) as [row|]; constructor.
  apply Forall2_lookup. intros c.
  rewrite list_lookup_imap. destruct (row !! c) as [px|]; constructor.
  destruct (inside _ _); auto.
Qed.

Lemma raster_line_draws_in : line_draws_in (cv := Raster.cv2).
Proof. intros img p q col t. apply paint_draws_in. Qed.

Section Merge.
Context `{cv : Cv2}.

Lemma mask_of_canvas (canvas : image) :
  cv2_cvtColor_GRAY2BGR
    (cv2_threshold_BINARY_INV (cv2_cvtColor_BGR2GRAY canvas) 50 255)
  = fmap (M:=list) mask_pixel <$> canvas.
Proof.
  unfold cv2_cvtColor_GRAY2BGR, cv2_threshold_BINARY_INV,
    cv2_cvtColor_BGR2GRAY.
  rewrite <-!list_fmap_compose. apply list_fmap_ext. intros _ row _. cbn.
  by rewrite <-!list_fmap_compose.
Qed.

Lemma merge_canvas_pixelwise (img canvas : image) :
  merge_canvas img canvas =
    if same_shape img canvas
    then Ok (zip_with (zip_with composite_pixel) img canvas)
    else Raise ValueError.
Proof.
  unfold merge_canvas. rewrite mask_of_canvas.
  unfold cv2_bitwise_and, cv2_bitwise_or, bitwise.
  rewrite same_shape_fmap_r.
  destruct (same_shape img canvas) eqn:Hs; [|done]. cbn.
  rewrite rows_zip_with_fmap_r.
  unfold same_shape at 1.
  rewrite zip_with_rows_shape by by apply same_shape_Forall2.
  fold (same_shape img canvas). rewrite Hs.
  by rewrite rows_zip_with_zip_with_l.
Qed.

Lemma composite_pixel_background (p : pixel) :
  cv2_gray (0, 0, 0) ≤ 50 → uint8_pixel p →
  composite_pixel p (0, 0, 0) = p.
Proof.
  intros Hg (Hb & Hg' & Hr). destruct p as [[b g] r]. cbn in *.
  unfold composite_pixel, mask_pixel, channelwise.
  rewrite bool_decide_eq_false_2 by lia. cbn.
  by rewrite !land_255, !Z.lor_0_r.
Qed.

Lemma composite_pixel_cases (p c : pixel) :
  uint8_pixel p →
  composite_pixel p c =
    if bool_decide (cv2_gray c > 50) then c else channelwise Z.lor p c.
Proof.
  intros (Hb & Hg' & Hr). destruct p as [[b g] r], c as [[cb cg] cr].
  cbn in *. unfold composite_pixel, mask_pixel, channelwise.
  case_bool_decide; cbn.
  - by rewrite !Z.land_0_r.
  - by rewrite !land_255.
Qed.

(** C9: on an all-background canvas of the frame's shape, the mask
    computation (grey value, threshold at 50, inverse mask, AND with the
    frame, OR with the canvas) returns the uint8 frame unchanged. *)
Theorem merge_background_canvas (img canvas : image) :
  cv2_gray (0, 0, 0) ≤ 50 →
  uint8_image img →
  same_shape img canvas = true →
  background canvas →
  merge_canvas img canvas = Ok img.
Proof.
  intros Hg Hu Hs Hb. rewrite merge_canvas_pixelwise, Hs. f_equal.
  apply same_shape_Forall2 in Hs. unfold uint8_image, background in *.
  apply zip_with_fix_l.
  induction Hs as [|r s a b Hrs _ IH]; [constructor|].
  apply Forall_cons_1 in Hu as [Hr Hu]. apply Forall_cons_1 in Hb as [Hsb Hb].
  constructor; [|by apply IH]. clear IH.
  apply zip_with_fix_l.
  revert s Hrs Hsb. induction r as [|p r IHr]; intros [|q s] Hrs Hsb;
    try done.
  apply Forall_cons_1 in Hr as [Hp Hr]. apply Forall_cons_1 in Hsb as [-> Hsb].
  constructor; [by apply composite_pixel_background|].
  apply IHr; [done| cbn in Hrs; lia | done].
Qed.

Lemma paste_header_pixel (img header img1 : image) r c hp :
  paste_header img header = Ok img1 →
  pixel_at header r c = Some hp →
  pixel_at img1 r c = Some hp.
Proof.
  unfold paste_header, shape, pixel_at. intros Hp Hh.
  case_bool_decide as Hfit; [|done]. destruct Hfit as [Hrows _].
  injection Hp as <-.
  destruct (header !! r) as [hrow|] eqn:Ehr; [|done]. cbn in Hh.
  assert (Hr : (r < length header)%nat) by by eapply lookup_lt_Some.
  destruct (lookup_lt_is_Some_2 img r) as [row Erow]; [lia|].
  rewrite lookup_app_l
    by (rewrite length_zip_with, length_take; lia).
  rewrite lookup_zip_with, Ehr. cbn.
  rewrite lookup_take_lt, Erow by lia. cbn.
  rewrite lookup_app_l by by eapply lookup_lt_Some. done.
Qed.

(** C4 (as amended): the header is pasted before the mask compositing, so
    in the frame displayed each pixel of the header's sub-rectangle is the
    canvas pixel where the canvas's grey value is above 50, and the bitwise
    OR of header pixel and canvas pixel elsewhere: painted canvas pixels in
    the header region show through. *)
Theorem header_under_canvas (img header canvas out : image) r c hp :
  merge img header canvas = Ok out →
  pixel_at header r c = Some hp →
  uint8_pixel hp →
  ∃ cp,
    pixel_at canvas r c = Some cp
    ∧ pixel_at out r c =
        Some (if bool_decide (cv2_gray cp > 50) then cp
              else channelwise Z.lor hp cp).
Proof.
  unfold merge. intros Hm Hh Hu.
  destruct (paste_header img header) as [img1|] eqn:Hp; [|done].
  cbn in Hm. rewrite merge_canvas_pixelwise in Hm.
  destruct (same_shape img1 canvas) eqn:Hs; [|done]. injection Hm as <-.
  pose proof (paste_header_pixel _ _ _ _ _ _ Hp Hh) as H1.
  destruct (same_shape_pixel_at _ _ _ _ _ Hs H1) as [cp Hc].
  exists cp. split; [done|].
  rewrite (pixel_at_zip_with _ _ _ _ _ _ _ H1 Hc).
  by rewrite composite_pixel_cases.
Qed.

(** C5 (as amended): for every run of stroke steps whose colours are not
    (0, 0, 0), a painted (non-background) pixel of the canvas is still
    painted afterwards, given that [cv2.line] writes nothing but the colour
    it is passed. *)
Theorem coloured_strokes_keep_paint (ops : list (pixel * point)) st r c p :
  line_draws_in →
  Forall (λ op, op.1 ≠ (0, 0, 0)) ops →
  pixel_at (img_canvas st) r c = Some p →
  p ≠ (0, 0, 0) →
  ∃ p', pixel_at (img_canvas (strokes ops st)) r c = Some p'
        ∧ p' ≠ (0, 0, 0).
Proof.
  intros Hline Hops. revert st p.
  induction Hops as [|[col pt] ops Hcol _ IH]; intros st p Hp Hne.
  { by exists p. }
  cbn in Hcol. unfold strokes. cbn. fold (strokes ops).
  assert (Hstep : draws_in col (img_canvas st)
                    (img_canvas (stroke st (col, pt)))).
  { unfold stroke, continueStroke. cbn.
    destruct (_ && _); cbn; apply Hline. }
  destruct (draws_in_pixel _ _ _ _ _ _ Hstep Hp) as (p1 & Hp1 & Hor).
  apply (IH _ p1 Hp1). by destruct Hor as [-> | ->].
Qed.
End Merge.

(** ** The theorems at concrete frames *)

Import Scenes.

(** [fingersUp_classifies] at an open hand of 21 landmarks. *)
Lemma fingersUp_classifies_witness :
  length open_hand = 21%nat
  ∧ ∃ thumb index middle ring pinky,
      fingersUp open_hand = Ok [thumb; index; middle; ring; pinky]
      ∧ Forall (λ v, v = 0 ∨ v = 1) [thumb; index; middle; ring; pinky]
      ∧ (index = 1 ↔ Y open_hand 8 < Y open_hand 6)
      ∧ (middle = 1 ↔ Y open_hand 12 < Y open_hand 10)
      ∧ (ring = 1 ↔ Y open_hand 16 < Y open_hand 14)
      ∧ (pinky = 1 ↔ Y open_hand 20 < Y open_hand 18)
      ∧ (X open_hand 4 < X open_hand 20 →
         (thumb = 1 ↔ X open_hand 4 < X open_hand 3))
      ∧ (¬ X open_hand 4 < X open_hand 20 →
         (thumb = 1 ↔ X open_hand 4 > X open_hand 3)).
Proof.
  split; [reflexivity | apply (fingersUp_classifies open_hand); reflexivity].
Defined.

(** C1 fails as stated: in the middle of a stroke whose last point is
    (100, 100), a frame with every finger down leaves the last point at
    (100, 100), not at the null value (0, 0). *)
Lemma idle_frame_keeps_last_point :
  fingersUp idle_hand = Ok [0; 0; 0; 0; 0]
  ∧ (last_x mid_stroke, last_y mid_stroke) = (100, 100)
  ∧ (r ← handle_gestures (cv:=Raster.cv2) overlay_list idle_hand mid_stroke
           camera;
     Ok (last_x r.1, last_y r.1)) = Ok (100, 100).
Proof. repeat split; vm_compute; reflexivity. Qed.

Lemma idle_frame_keeps_state_witness :
  fingersUp idle_hand = Ok [0; 0; 0; 0; 0]
  ∧ [0; 0; 0; 0; 0] !! 1%nat = Some 0
  ∧ handle_gestures (cv:=Raster.cv2) overlay_list idle_hand mid_stroke camera
    = Ok (mid_stroke, camera).
Proof.
  split_and!; [vm_compute; reflexivity | reflexivity |].
  apply (idle_frame_keeps_state (cv:=Raster.cv2) overlay_list idle_hand
           mid_stroke camera [0; 0; 0; 0; 0]);
    [vm_compute; reflexivity | reflexivity].
Defined.

(** [all_fingers_up_clears] in the middle of a stroke, with last point
    (100, 100), on a canvas that holds a red pixel. *)
Lemma all_fingers_up_clears_witness :
  (4 ≤ length overlay_list)%nat
  ∧ fingersUp open_hand = Ok [1; 1; 1; 1; 1]
  ∧ Forall (λ v, truthy v = true) [1; 1; 1; 1; 1]
  ∧ ∃ st' img',
      handle_gestures (cv:=Raster.cv2) overlay_list open_hand
        Footage.dotted_mid_stroke camera = Ok (st', img')
      ∧ background (img_canvas st')
      ∧ last_x st' = 0 ∧ last_y st' = 0
      ∧ img_canvas st' =
          np_zeros (shape (img_canvas Footage.dotted_mid_stroke)).1
            (shape (img_canvas Footage.dotted_mid_stroke)).2
      ∧ shape (img_canvas st') = shape (img_canvas Footage.dotted_mid_stroke)
      ∧ ∀ h w, sized h w (img_canvas Footage.dotted_mid_stroke) →
               sized h w (img_canvas st').
Proof.
  assert (Hup : Forall (λ v, truthy v = true) [1; 1; 1; 1; 1])
    by (repeat apply Forall_cons_2; [reflexivity..| apply Forall_nil_2]).
  split_and!; [vm_compute; lia | vm_compute; reflexivity | exact Hup |].
  apply (all_fingers_up_clears (cv:=Raster.cv2) overlay_list open_hand
           Footage.dotted_mid_stroke camera [1; 1; 1; 1; 1]);
    [vm_compute; lia | vm_compute; reflexivity | exact Hup].
Defined.

(** C3 fails as stated: from a null last point the first stroke step at
    (5, 5) paints the pixel (5, 5) of a blank canvas; and after a first step
    at the pixel (0, 0) the next step, at (30, 30), leaves the pixel
    (15, 15) blank, which the segment from (0, 0) to (30, 30) covers. *)
Lemma first_stroke_step_paints :
  pixel_at (img_canvas (start 32)) 5 5 = Some BLACK
  ∧ pixel_at (img_canvas (continueStroke (cv:=Raster.cv2) 5 5 (start 32))) 5 5
    = Some RED
  ∧ (let st1 := continueStroke (cv:=Raster.cv2) 0 0 (start 32) in
     let st2 := continueStroke (cv:=Raster.cv2) 30 30 st1 in
     pixel_at (img_canvas st2) 15 15 = Some BLACK
     ∧ pixel_at (Raster.line (img_canvas st1) (0, 0) (30, 30) RED
                   POINTER_THICKNESS) 15 15 = Some RED).
Proof. repeat split; vm_compute; reflexivity. Qed.

Lemma continueStroke_first_then_next_witness :
  last_x (start 32) = 0 ∧ last_y (start 32) = 0
  ∧ (5, 5) ≠ (0, 0)
  ∧ let st1 := continueStroke (cv:=Raster.cv2) 5 5 (start 32) in
    let st2 := continueStroke (cv:=Raster.cv2) 9 7 st1 in
    img_canvas st1 =
      cv2_line (Cv2:=Raster.cv2) (img_canvas (start 32)) (5, 5) (5, 5)
        (draw_color (start 32)) POINTER_THICKNESS
    ∧ (last_x st1, last_y st1) = (5, 5)
    ∧ img_canvas st2 =
        cv2_line (Cv2:=Raster.cv2) (img_canvas st1) (5, 5) (9, 7)
          (draw_color (start 32)) POINTER_THICKNESS
    ∧ (last_x st2, last_y st2) = (9, 7)
    ∧ header st2 = header (start 32)
    ∧ draw_color st2 = draw_color (start 32).
Proof.
  split_and!; [reflexivity | reflexivity | discriminate |].
  apply (continueStroke_first_then_next (cv:=Raster.cv2) (start 32) 5 5 9 7);
    [reflexivity | reflexivity | discriminate].
Defined.

(** C4 fails as stated: with a red canvas pixel in the corner, the corner of
    the frame displayed is red, not the header's pixel (10, 20, 30); next to
    it, where the canvas is blank, the header shows. *)
Lemma painted_pixel_covers_header :
  pixel_at (plain 2 3 (10, 20, 30)) 0 0 = Some (10, 20, 30)
  ∧ pixel_at dotted 0 0 = Some RED
  ∧ (out ← merge (cv:=Raster.cv2) camera (plain 2 3 (10, 20, 30)) dotted;
     Ok (pixel_at out 0 0, pixel_at out 0 1))
    = Ok (Some RED, Some (10, 20, 30)).
Proof. repeat split; vm_compute; reflexivity. Qed.

Lemma header_under_canvas_witness :
  merge (cv:=Raster.cv2) camera (plain 2 3 (10, 20, 30)) dotted
    = Ok merged_dotted
  ∧ pixel_at (plain 2 3 (10, 20, 30)) 0 0 = Some (10, 20, 30)
  ∧ uint8_pixel (10, 20, 30)
  ∧ ∃ cp,
      pixel_at dotted 0 0 = Some cp
      ∧ pixel_at merged_dotted 0 0 =
          Some (if bool_decide (cv2_gray (Cv2:=Raster.cv2) cp > 50) then cp
                else channelwise Z.lor (10, 20, 30) cp).
Proof.
  assert (Hu : uint8_pixel (10, 20, 30)) by (unfold uint8_pixel, uint8; cbn; lia).
  split_and!; [vm_compute; reflexivity | reflexivity | exact Hu |].
  apply (header_under_canvas (cv:=Raster.cv2) camera (plain 2 3 (10, 20, 30))
           dotted merged_dotted 0 0 (10, 20, 30));
    [vm_compute; reflexivity | reflexivity | exact Hu].
Defined.

(** C5 fails as stated: a drawing frame at (3, 3) paints the pixel (3, 3)
    red; after a selecting frame at (1100, 50), in the fourth toolbar
    region, the colour is (0, 0, 0), and the next drawing frame at (3, 3)
    puts the pixel back to background, with no clear in between. *)
Lemma black_stroke_erases :
  (st ← gestures (cv:=Raster.cv2) overlay_list [(draw_at (3, 3), camera)]
          (start 8);
   Ok (pixel_at (img_canvas st) 3 3)) = Ok (Some RED)
  ∧ (st ← gestures (cv:=Raster.cv2) overlay_list
            [(draw_at (3, 3), camera); (select_at (1100, 50), camera)]
            (start 8);
     Ok (pixel_at (img_canvas st) 3 3, draw_color st))
    = Ok (Some RED, (0, 0, 0))
  ∧ (st ← gestures (cv:=Raster.cv2) overlay_list
            [(draw_at (3, 3), camera); (select_at (1100, 50), camera);
             (draw_at (3, 3), camera)]
            (start 8);
     Ok (pixel_at (img_canvas st) 3 3)) = Ok (Some (0, 0, 0))
  ∧ pixel_at
      (img_canvas
         (strokes (cv:=Raster.cv2) [(RED, (3, 3)); ((0, 0, 0), (3, 3))]
            (start 8))) 3 3 = Some (0, 0, 0).
Proof. repeat split; vm_compute; reflexivity. Qed.

Lemma coloured_strokes_keep_paint_witness :
  line_draws_in (cv:=Raster.cv2)
  ∧ Forall (λ op : pixel * point, op.1 ≠ (0, 0, 0))
      [(BLUE, (30, 30)); (GREEN, (0, 1))]
  ∧ pixel_at (img_canvas dotted_state) 0 0 = Some RED
  ∧ RED ≠ (0, 0, 0)
  ∧ ∃ p',
      pixel_at
        (img_canvas
           (strokes (cv:=Raster.cv2) [(BLUE, (30, 30)); (GREEN, (0, 1))]
              dotted_state)) 0 0 = Some p'
      ∧ p' ≠ (0, 0, 0).
Proof.
  assert (Hops : Forall (λ op : pixel * point, op.1 ≠ (0, 0, 0))
                   [(BLUE, (30, 30)); (GREEN, (0, 1))])
    by (repeat apply Forall_cons_2; [discriminate..| apply Forall_nil_2]).
  split_and!;
    [exact raster_line_draws_in | exact Hops | reflexivity | discriminate |].
  apply (coloured_strokes_keep_paint (cv:=Raster.cv2)
           [(BLUE, (30, 30)); (GREEN, (0, 1))] dotted_state 0 0 RED);
    [exact raster_line_draws_in | exact Hops | reflexivity | discriminate].
Defined.

Lemma tool_changes_only_by_selection_witness :
  fingersUp (select_at (100, 50)) = Ok [0; 1; 1; 0; 0]
  ∧ truthy 1 = true
  ∧ X (select_at (100, 50)) 8 = 100 ∧ Y (select_at (100, 50)) 8 = 50
  ∧ overlay_list !! 0%nat = Some (plain 2 3 (10, 20, 30))
  ∧ ∃ st' img',
      handle_gestures (cv:=Raster.cv2) overlay_list (select_at (100, 50))
        mid_stroke camera = Ok (st', img')
      ∧ header st' = plain 2 3 (10, 20, 30) ∧ draw_color st' = (0, 0, 255).
Proof.
  split_and!; [vm_compute; reflexivity | reflexivity..|].
  apply (proj1 (proj2 (tool_changes_only_by_selection (cv:=Raster.cv2)
                         overlay_list))
           (select_at (100, 50)) mid_stroke camera [0; 1; 1; 0; 0] 1 1);
    [vm_compute; reflexivity | reflexivity..].
Defined.

Lemma merge_background_canvas_witness :
  cv2_gray (Cv2:=Raster.cv2) (0, 0, 0) ≤ 50
  ∧ uint8_image camera
  ∧ same_shape camera (np_zeros 8 8) = true
  ∧ background (np_zeros 8 8)
  ∧ merge_canvas (cv:=Raster.cv2) camera (np_zeros 8 8) = Ok camera.
Proof.
  assert (Hu : uint8_image camera).
  { unfold uint8_image, camera, plain.
    apply Forall_replicate, Forall_replicate.
    unfold uint8_pixel, uint8. cbn. lia. }
  assert (Hg : cv2_gray (Cv2:=Raster.cv2) (0, 0, 0) ≤ 50)
    by (vm_compute; discriminate).
  split_and!;
    [exact Hg | exact Hu | reflexivity | apply background_np_zeros |].
  apply (merge_background_canvas (cv:=Raster.cv2) camera (np_zeros 8 8));
    [exact Hg | exact Hu | reflexivity | apply background_np_zeros].
Defined.

Lemma origin_is_no_last_point_witness :
  fingersUp (draw_at (5, 6)) = Ok [0; 1; 0; 0; 0]
  ∧ truthy 1 = true ∧ truthy 0 = false
  ∧ last_x dotted_state = 0 ∧ last_y dotted_state = 0
  ∧ handle_gestures (cv:=Raster.cv2) overlay_list (draw_at (5, 6))
      dotted_state camera
    = Ok (mkState
            (Raster.line dotted (5, 6) (5, 6) RED POINTER_THICKNESS)
            5 6 (plain 2 3 (10, 20, 30)) RED,
          Raster.circle camera (5, 6) POINTER_THICKNESS RED).
Proof.
  split_and!; [vm_compute; reflexivity | reflexivity..|].
  apply (origin_is_no_last_point (cv:=Raster.cv2) overlay_list
           (draw_at (5, 6)) dotted_state camera [0; 1; 0; 0; 0] 1 0);
    [vm_compute; reflexivity | reflexivity..].
Defined.

(** * Further properties *)

(** ** The finger vector *)

(** X1: [fingersUp] raises IndexError exactly on a landmark list of fewer
    than 21 entries; on any longer list it returns five entries, each 0 or
    1. *)
Theorem fingersUp_outcome (lms : list landmark) :
  ((length lms < 21)%nat ∧ fingersUp lms = Raise IndexError)
  ∨ ((21 ≤ length lms)%nat
     ∧ ∃ fs, fingersUp lms = Ok fs ∧ length fs = 5%nat
             ∧ Forall (λ v, v = 0 ∨ v = 1) fs).
Proof.
  destruct (decide (length lms < 21)%nat) as [Hs|Hl].
  - left. split; [done|]. by apply fingersUp_short.
  - right. split; [lia|].
    destruct (fingersUp lms) as [fs|e] eqn:Hfs.
    + destruct (fingersUp_Ok _ _ Hfs) as (_ & a & b & c & d & e & -> & H01).
      by exists [a; b; c; d; e].
    + rewrite fingersUp_eq in Hfs by lia. done.
Qed.

Lemma affine_length kx dx ky dy (lms : list landmark) :
  length (affine kx dx ky dy lms) = length lms.
Proof. apply length_fmap. Qed.

Lemma affine_X kx dx ky dy (lms : list landmark) i :
  (i < length lms)%nat →
  X (affine kx dx ky dy lms) i = kx * X lms i + dx.
Proof.
  intros Hi. unfold X, affine.
  destruct (lookup_lt_is_Some_2 lms i Hi) as [l Hl].
  rewrite (list_lookup_total_correct _ _ _ Hl).
  erewrite list_lookup_total_correct; [|by rewrite list_lookup_fmap, Hl].
  done.
Qed.

Lemma affine_Y kx dx ky dy (lms : list landmark) i :
  (i < length lms)%nat →
  Y (affine kx dx ky dy lms) i = ky * Y lms i + dy.
Proof.
  intros Hi. unfold Y, affine.
  destruct (lookup_lt_is_Some_2 lms i Hi) as [l Hl].
  rewrite (list_lookup_total_correct _ _ _ Hl).
  erewrite list_lookup_total_correct; [|by rewrite list_lookup_fmap, Hl].
  done.
Qed.

Lemma bool_decide_lt_scale k a b d :
  0 < k → bool_decide (k * a + d < k * b + d) = bool_decide (a < b).
Proof. intros Hk. apply bool_decide_ext. nia. Qed.

Lemma bool_decide_gt_scale k a b d :
  0 < k → bool_decide (k * a + d > k * b + d) = bool_decide (a > b).
Proof. intros Hk. apply bool_decide_ext. nia. Qed.

(** X2: the finger vector does not depend on where the hand is or how
    large it is: scaling x and y by positive factors and shifting them by
    any offsets leaves the result of [fingersUp] unchanged. *)
Theorem fingersUp_affine kx dx ky dy (lms : list landmark) :
  0 < kx → 0 < ky →
  fingersUp (affine kx dx ky dy lms) = fingersUp lms.
Proof.
  intros Hkx Hky. destruct (decide (length lms < 21)%nat) as [Hs|Hl].
  - rewrite !fingersUp_short; [done..|by rewrite affine_length].
  - rewrite !fingersUp_eq by (rewrite ?affine_length; lia).
    rewrite !affine_X, !affine_Y by lia.
    by rewrite !bool_decide_lt_scale, !bool_decide_gt_scale.
Qed.

(** X3: the two-branch thumb test makes [fingersUp] blind to a horizontal
    flip: a negative scaling of x (the mirror image, as [cv2.flip(img, 1)]
    produces it) leaves the result unchanged, provided thumb tip and pinky
    tip differ in x. *)
Theorem fingersUp_mirror kx dx ky dy (lms : list landmark) :
  kx < 0 → 0 < ky →
  X lms 4 ≠ X lms 20 →
  fingersUp (affine kx dx ky dy lms) = fingersUp lms.
Proof.
  intros Hkx Hky Hne. destruct (decide (length lms < 21)%nat) as [Hs|Hl].
  - rewrite !fingersUp_short; [done..|by rewrite affine_length].
  - rewrite !fingersUp_eq by (rewrite ?affine_length; lia).
    rewrite !affine_X, !affine_Y by lia.
    rewrite !(bool_decide_lt_scale ky) by done.
    do 2 f_equal. f_equal.
    repeat case_bool_decide; try reflexivity; nia.
Qed.

Import Detection MainLoop.

Section DetectionFacts.
Context `{cv : Cv2}.
Variable overlay_list : list image.
Variable float : Type.
Variable to_pixel : float → nat → Z.
Variable cv2_ring : image → point → Z → pixel → Z → image.

Local Abbreviation positions := (positions float to_pixel cv2_ring).
Local Abbreviation getLandmarkPositions :=
  (getLandmarkPositions float to_pixel cv2_ring).
Local Abbreviation round := (round overlay_list float to_pixel cv2_ring).

Lemma positions_list width height draw (landmarks : list (float * float))
    n lmList img :
  (positions width height draw landmarks n lmList img).1 =
    lmList ++ imap (λ i lm, (Z.of_nat (n + i), to_pixel lm.1 width,
                               to_pixel lm.2 height)) landmarks.
Proof.
  revert n lmList img.
  induction landmarks as [|lm rest IH]; intros n lmList img; cbn.
  { by rewrite app_nil_r. }
  rewrite IH, <-app_assoc. cbn. rewrite Nat.add_0_r. do 2 f_equal.
  apply imap_ext. intros i x _. cbn. do 3 f_equal. lia.
Qed.

Lemma positions_no_draw width height (landmarks : list (float * float))
    n lmList img :
  (positions width height false landmarks n lmList img).2 = img.
Proof.
  revert n lmList. induction landmarks as [|lm rest IH]; intros n lmList;
    cbn; [done|apply IH].
Qed.

(** X4: for a hand that exists, [getLandmarkPositions] returns one entry
    per landmark, in order and numbered from 0, with the pixel coordinates
    [int(x * width)] and [int(y * height)]; the list is the same with and
    without drawing, and with [draw=False] the image is left as it was. *)
Theorem getLandmarkPositions_enumerates
    (hands : list (list (float * float))) myHand img handNo :
  hands !! handNo = Some myHand →
  let lmList :=
    imap (λ i lm, (Z.of_nat i, to_pixel lm.1 (shape img).2,
                    to_pixel lm.2 (shape img).1)) myHand in
  getLandmarkPositions (Some hands) img handNo false = Ok (lmList, img)
  ∧ ∃ img', getLandmarkPositions (Some hands) img handNo true
            = Ok (lmList, img').
Proof.
  intros Hh lmList. unfold Detection.getLandmarkPositions.
  destruct (shape img) as [height width] eqn:Hs.
  destruct hands as [|hand hands]; [done|].
  unfold getitem. rewrite Hh. cbn.
  split.
  - rewrite (surjective_pairing (positions _ _ _ _ _ _ _)).
    by rewrite positions_list, positions_no_draw.
  - eexists. rewrite (surjective_pairing (positions _ _ _ _ _ _ _)).
    by rewrite positions_list.
Qed.

(** X5: with no hand ([multi_hand_landmarks] is [None] or empty)
    [getLandmarkPositions] returns the empty list and the image untouched
    for every [handNo]; with hands it raises IndexError exactly when
    [handNo] is not below their number. *)
Theorem getLandmarkPositions_raises
    (multi_hand_landmarks : option (list (list (float * float))))
    img handNo draw :
  match multi_hand_landmarks with
  | None | Some [] =>
      getLandmarkPositions multi_hand_landmarks img handNo draw = Ok ([], img)
  | Some hands =>
      ((handNo < length hands)%nat
       ∧ ∃ r, getLandmarkPositions multi_hand_landmarks img handNo draw = Ok r)
      ∨ ((length hands ≤ handNo)%nat
         ∧ getLandmarkPositions multi_hand_landmarks img handNo draw
           = Raise IndexError)
  end.
Proof.
  unfold Detection.getLandmarkPositions. destruct (shape img) as [height width].
  destruct multi_hand_landmarks as [[|hand hands]|]; [done| |done].
  destruct (decide (handNo < length (hand :: hands))%nat) as [Hlt|Hge].
  - left. split; [done|]. unfold getitem.
    destruct (lookup_lt_is_Some_2 _ _ Hlt) as [h ->]. cbn. eauto.
  - right. split; [lia|]. by rewrite getitem_ge by lia.
Qed.

(** X6: a round of the main loop in which the pose model finds no hand
    keeps canvas, last point, colour and header, and shows the merge of the
    camera frame with the unchanged canvas and header. *)
Theorem round_without_hand multi_hand_landmarks img st :
  multi_hand_landmarks = None ∨ multi_hand_landmarks = Some [] →
  round multi_hand_landmarks img st =
    (out ← merge img (header st) (img_canvas st); Ok (st, out)).
Proof.
  intros [-> | ->]; unfold MainLoop.round, Detection.getLandmarkPositions;
    destruct (shape img); reflexivity.
Qed.
End DetectionFacts.

(** X7: the loop ends on a key code exactly when its low byte is 113
    (the letter q), whatever flag bits are set above it; the value -1 that
    [cv2.waitKey] gives when no key is pressed does not end it. *)
Theorem quit_key_low_byte (key : Z) :
  (quit_key key = true ↔ key `mod` 256 = 113) ∧ quit_key (-1) = false.
Proof.
  split; [|reflexivity]. unfold quit_key.
  rewrite bool_decide_eq_true. change 255 with (Z.ones 8).
  by rewrite Z.land_ones.
Qed.

Section MoreGestures.
Context `{cv : Cv2}.
Variable overlay_list : list image.
Local Arguments clear_canvas : simpl never.
Local Arguments draw_mode : simpl never.
Local Arguments selection_mode : simpl never.

Lemma handle_gestures_short (lms : list landmark) st img :
  (0 < length lms < 21)%nat →
  handle_gestures overlay_list lms st img = Raise IndexError.
Proof.
  intros [Hpos Hlt]. unfold handle_gestures.
  rewrite bool_decide_eq_true_2 by done.
  by rewrite fingersUp_short.
Qed.

Lemma selection_mode_total x1 y1 x2 y2 st img :
  (4 ≤ length overlay_list)%nat →
  ∃ st' img', selection_mode overlay_list x1 y1 x2 y2 st img = Ok (st', img').
Proof.
  intros Hov. unfold selection_mode. case_bool_decide; [|cbn; eauto].
  destruct (select_tool_total overlay_list x1 (set_last 0 0 st) Hov)
    as [st1 ->]. cbn. eauto.
Qed.

Lemma handle_gestures_Ok (lms : list landmark) st img :
  lms = [] ∨ (21 ≤ length lms)%nat →
  (4 ≤ length overlay_list)%nat →
  ∃ st' img', handle_gestures overlay_list lms st img = Ok (st', img').
Proof.
  intros [-> | Hlen] Hov; [by do 2 eexists|].
  pose proof (fingersUp_eq lms Hlen) as Hfs.
  rewrite (handle_gestures_detected _ _ _ _ _ _ _ _ _ Hfs).
  destruct (selection_mode_total (X lms 8) (Y lms 8) (X lms 12) (Y lms 12)
              st img Hov) as (st1 & img1 & ->).
  destruct (draw_mode (X lms 8) (Y lms 8) st img) as [st2 img2].
  destruct (forallb _ _); destruct (truthy _ && truthy _);
    try destruct (truthy _ && negb _); cbn; eauto.
Qed.

(** X8: with four header images loaded, gesture handling raises exactly
    when the landmark list is not empty but has fewer than the 21 landmarks
    [fingersUp] reads, and then it is an IndexError; with no landmarks or at
    least 21 it never raises. *)
Theorem handle_gestures_raises_iff (lms : list landmark) st img :
  (4 ≤ length overlay_list)%nat →
  ((0 < length lms < 21)%nat
   ∧ handle_gestures overlay_list lms st img = Raise IndexError)
  ∨ ((lms = [] ∨ (21 ≤ length lms)%nat)
     ∧ ∃ st' img', handle_gestures overlay_list lms st img = Ok (st', img')).
Proof.
  intros Hov. destruct (decide (0 < length lms < 21)%nat) as [Hshort|Hlong].
  - left. split; [done|]. by apply handle_gestures_short.
  - right.
    assert (Hlms : lms = [] ∨ (21 ≤ length lms)%nat).
    { destruct lms as [|l lms']; [by left|]. right. cbn in *. lia. }
    split; [done|]. by apply handle_gestures_Ok.
Qed.

Lemma select_tool_region x1 st :
  select_tool overlay_list x1 st =
    match Toolbar.region_of x1 with
    | Some i => h ← getitem overlay_list i;
                Ok (set_tool h (Toolbar.colours !!! i) st)
    | None => Ok st
    end.
Proof.
  unfold select_tool, Toolbar.region_of. by repeat case_bool_decide.
Qed.

(** X9: a selecting frame whose index fingertip is in the toolbar band,
    in a region whose header image is missing from [overlay_list], raises
    IndexError. *)
Theorem selecting_missing_header (lms : list landmark) st img fs index middle i :
  fingersUp lms = Ok fs →
  fs !! 1%nat = Some index → fs !! 2%nat = Some middle →
  truthy index = true → truthy middle = true →
  Y lms 8 < 100 →
  Toolbar.region_of (X lms 8) = Some i →
  (length overlay_list ≤ i)%nat →
  handle_gestures overlay_list lms st img = Raise IndexError.
Proof.
  intros Hfs Hix Hmi Ti Tm Hy Hreg Hlen.
  rewrite (selecting_frame _ _ _ _ _ _ _ Hfs Hix Hmi Ti Tm).
  unfold selection_mode. rewrite bool_decide_eq_true_2 by done.
  rewrite select_tool_region, Hreg, getitem_ge by done. done.
Qed.

(** The ways a frame can end. *)
Lemma handle_gestures_cases (lms : list landmark) st img st' img' :
  handle_gestures overlay_list lms st img = Ok (st', img') →
  (st' = st ∧ img' = img)
  ∨ (∃ st1,
       selection_mode overlay_list (X lms 8) (Y lms 8) (X lms 12) (Y lms 12)
         st img = Ok (st1, img')
       ∧ (st' = st1
          ∨ (st' = clear_canvas st1 ∧ fingersUp lms = Ok [1; 1; 1; 1; 1])))
  ∨ (drawing_at lms (X lms 8, Y lms 8)
     ∧ (st', img') = draw_mode (X lms 8) (Y lms 8) st img).
Proof.
  intros Hstep.
  destruct (decide (lms = [])) as [-> | Hne].
  { left. by injection Hstep as <- <-. }
  destruct (fingersUp lms) as [fs|e] eqn:Hfs.
  2: { unfold handle_gestures in Hstep. rewrite Hfs in Hstep.
       destruct lms; [done|].
       by rewrite bool_decide_eq_true_2 in Hstep by (cbn; lia). }
  destruct (fingersUp_Ok _ _ Hfs) as (_ & a & ix & mi & d & e & -> & H01).
  destruct (truthy ix) eqn:Ti, (truthy mi) eqn:Tm.
  - rewrite (selecting_frame _ _ _ _ _ _ _ Hfs eq_refl eq_refl Ti Tm) in Hstep.
    destruct (selection_mode _ _ _ _ _ _ _) as [[st1 img1]|]; [|done].
    cbn -[forallb] in Hstep. right; left. exists st1.
    destruct (forallb _ _) eqn:Hall; injection Hstep as <- <-; [|by auto].
    split; [done|]. right. split; [done|]. f_equal.
    cbn in Hall. repeat case_bool_decide; try done.
    repeat (apply Forall_cons_1 in H01 as [[?|?] H01]); simplify_eq; done.
  - rewrite (drawing_frame _ _ _ _ _ _ _ Hfs eq_refl eq_refl Ti Tm) in Hstep.
    right; right. split; [|congruence].
    by exists [a; ix; mi; d; e], ix, mi.
  - left. rewrite (handle_gestures_detected _ _ _ _ _ _ _ _ _ Hfs) in Hstep.
    rewrite Ti in Hstep. cbn in Hstep.
    assert (ix = 0) as -> by (unfold truthy in Ti; lia).
    cbn in Hstep. rewrite andb_false_r in Hstep. by injection Hstep as <- <-.
  - left. rewrite (handle_gestures_detected _ _ _ _ _ _ _ _ _ Hfs) in Hstep.
    rewrite Ti in Hstep. cbn in Hstep.
    assert (ix = 0) as -> by (unfold truthy in Ti; lia).
    cbn in Hstep. rewrite andb_false_r in Hstep. by injection Hstep as <- <-.
Qed.

Lemma selection_mode_effect x1 y1 x2 y2 st img st' img' :
  selection_mode overlay_list x1 y1 x2 y2 st img = Ok (st', img') →
  last_x st' = 0 ∧ last_y st' = 0 ∧ img_canvas st' = img_canvas st.
Proof.
  unfold selection_mode. intros Hsel. case_bool_decide.
  - destruct (select_tool _ _ _) as [st1|] eqn:Htool; [|done].
    cbn in Hsel. injection Hsel as <- _.
    by apply select_tool_last in Htool as (-> & -> & ->).
  - cbn in Hsel. by injection Hsel as <- _.
Qed.

Lemma all_up_forallb (fs : list Z) :
  Forall (λ v, v = 0 ∨ v = 1) fs →
  forallb (λ x, bool_decide (x >= 1)) fs = true ↔ Forall (λ v, v = 1) fs.
Proof.
  induction 1 as [|v fs Hv _ IH]; cbn.
  - split; [constructor|done].
  - rewrite andb_true_iff, IH, bool_decide_eq_true. split.
    + intros [Hge Hrest]. constructor; [lia|done].
    + intros Hall. apply Forall_cons_1 in Hall as [-> Hrest]. split; [lia|done].
Qed.

(** X10: every frame with index and middle finger up ends with the last
    point at its null value (0, 0).  Unless all five fingers are up its
    canvas is the canvas before the frame; when all five are up its canvas
    is the array of zeros of the old canvas's shape, every pixel at
    background. *)
Theorem selecting_lifts_pen (lms : list landmark) st img fs index middle st' img' :
  fingersUp lms = Ok fs →
  fs !! 1%nat = Some index → fs !! 2%nat = Some middle →
  truthy index = true → truthy middle = true →
  handle_gestures overlay_list lms st img = Ok (st', img') →
  last_x st' = 0 ∧ last_y st' = 0
  ∧ ((¬ Forall (λ v, v = 1) fs ∧ img_canvas st' = img_canvas st)
     ∨ (Forall (λ v, v = 1) fs
        ∧ img_canvas st' =
            np_zeros (shape (img_canvas st)).1 (shape (img_canvas st)).2
        ∧ background (img_canvas st'))).
Proof.
  intros Hfs Hix Hmi Ti Tm Hstep.
  rewrite (selecting_frame _ _ _ _ _ _ _ Hfs Hix Hmi Ti Tm) in Hstep.
  destruct (selection_mode _ _ _ _ _ _ _) as [[st1 img1]|] eqn:Hsel; [|done].
  apply selection_mode_effect in Hsel as (Hx & Hy & Hc). cbn in Hstep.
  destruct (fingersUp_Ok _ _ Hfs) as (_ & _ & _ & _ & _ & _ & _ & H01).
  pose proof (all_up_forallb fs H01) as Hiff.
  destruct (forallb _ fs) eqn:Hall; injection Hstep as <- <-.
  - destruct (clear_canvas_spec st1) as (Hb & -> & -> & _).
    destruct (clear_canvas_shape st1) as [Hzeros _]. rewrite Hc in Hzeros.
    split_and!; [done..|]. right. split_and!; [by apply Hiff|done..].
  - split_and!; [done..|]. left. split; [|done].
    intros Hup. apply Hiff in Hup. done.
Qed.

(** X11: a frame changes the canvas in two ways only: a drawing frame
    replaces it by one [cv2.line] call in the active colour, ending at the
    index fingertip and starting at the old last point or at the fingertip
    itself; a frame with all five fingers up leaves it blank. *)
Theorem canvas_changes_by_draw_or_clear (lms : list landmark) st img st' img' :
  handle_gestures overlay_list lms st img = Ok (st', img') →
  img_canvas st' = img_canvas st
  ∨ (∃ from,
       drawing_at lms (last_x st', last_y st')
       ∧ (from = (last_x st, last_y st) ∨ from = (last_x st', last_y st'))
       ∧ img_canvas st' =
           cv2_line (img_canvas st) from (last_x st', last_y st')
             (draw_color st) POINTER_THICKNESS)
  ∨ (fingersUp lms = Ok [1; 1; 1; 1; 1] ∧ background (img_canvas st')).
Proof.
  intros Hstep.
  destruct (handle_gestures_cases _ _ _ _ _ Hstep)
    as [[-> _] | [(st1 & Hsel & Hst') | [Hd Hdraw]]]; [by left| |].
  - apply selection_mode_effect in Hsel as (_ & _ & Hcan).
    destruct Hst' as [-> | [-> Hall]]; [by left|].
    right; right. split; [done|].
    by destruct (clear_canvas_spec st1) as [? _].
  - right; left. unfold draw_mode in Hdraw. injection Hdraw as -> _.
    destruct (decide ((last_x st, last_y st) = (0, 0))) as [H0|H0].
    + injection H0 as Hx Hy. rewrite continueStroke_fresh by done. cbn.
      exists (X lms 8, Y lms 8). auto.
    + rewrite continueStroke_next by done. cbn.
      exists (last_x st, last_y st). auto.
Qed.
End MoreGestures.

Section Runs.
Context `{cv : Cv2}.
Variable overlay_list : list image.
Local Arguments clear_canvas : simpl never.
Local Arguments draw_mode : simpl never.
Local Arguments selection_mode : simpl never.

Lemma gestures_invariant (P : State → Prop) frames st st' :
  (∀ lms img s s' img',
     handle_gestures overlay_list lms s img = Ok (s', img') → P s → P s') →
  P st → gestures overlay_list frames st = Ok st' → P st'.
Proof.
  intros Hstep. revert st.
  induction frames as [|[lms img] frames IH]; intros st HP Hrun; cbn in Hrun.
  { by injection Hrun as <-. }
  destruct (handle_gestures _ _ _ _) as [[s1 img1]|] eqn:H1; [|done].
  cbn in Hrun. eapply IH; [|done]. by eapply Hstep.
Qed.

Lemma tool_paired_step (lms : list landmark) img st st' img' :
  handle_gestures overlay_list lms st img = Ok (st', img') →
  tool_paired overlay_list st → tool_paired overlay_list st'.
Proof.
  intros Hstep Hp.
  destruct (handle_gestures_cases _ _ _ _ _ _ Hstep)
    as [[-> _] | [(st1 & Hsel & Hst') | [_ Hdraw]]]; [done| |].
  - assert (tool_paired overlay_list st1) as (i & c & Hh & Hc & Hcol).
    { unfold selection_mode in Hsel. case_bool_decide.
      - destruct (select_tool _ _ _) as [s|] eqn:Htool; [|done].
        cbn in Hsel. injection Hsel as <- _.
        rewrite select_tool_region in Htool.
        destruct (Toolbar.region_of _) as [i|] eqn:Hreg;
          [|by injection Htool as <-].
        unfold getitem in Htool.
        destruct (overlay_list !! i) as [h|] eqn:Hi; [|done].
        injection Htool as <-. exists i, (Toolbar.colours !!! i).
        split_and!; [done| |done].
        unfold Toolbar.region_of in Hreg.
        repeat case_bool_decide; by simplify_eq.
      - cbn in Hsel. by injection Hsel as <- _. }
    exists i, c. destruct Hst' as [-> | [-> _]]; [done|].
    by destruct (clear_canvas_spec st1) as (_ & _ & _ & -> & ->).
  - unfold draw_mode in Hdraw. injection Hdraw as -> _.
    destruct Hp as (i & c & ? & ? & ?). exists i, c.
    by destruct (continueStroke_tool (X lms 8) (Y lms 8) st) as [-> ->].
Qed.

(** X12: from start-up on, after any run of frames, the header shown and
    the drawing colour belong to the same toolbar region. *)
Theorem header_matches_colour frames st0 st :
  initial overlay_list = Ok st0 →
  gestures overlay_list frames st0 = Ok st →
  tool_paired overlay_list st.
Proof.
  intros Hinit Hrun.
  eapply (gestures_invariant (tool_paired overlay_list)); [|  |exact Hrun].
  - intros lms img s s' img'. apply tool_paired_step.
  - unfold initial, getitem in Hinit.
    destruct (overlay_list !! 0%nat) as [h|] eqn:H0; [|done].
    injection Hinit as <-. by exists 0%nat, (0, 0, 255).
Qed.

Lemma last_cons_default {A} (l : list A) (x d : A) :
  List.last (x :: l) d = List.last l x.
Proof.
  revert x d. induction l as [|y l IH]; intros x d; [done|].
  change (List.last (x :: y :: l) d) with (List.last (y :: l) d).
  by rewrite !IH.
Qed.

Lemma strokes_from (frames : list (list landmark * image)) pts st :
  Forall2 (λ f p, drawing_at f.1 p) frames pts →
  Forall (λ q, q ≠ (0, 0)) pts →
  (last_x st, last_y st) ≠ (0, 0) →
  let q := List.last pts (last_x st, last_y st) in
  gestures overlay_list frames st =
    Ok (mkState
          (polyline (img_canvas st) (last_x st, last_y st) pts (draw_color st))
          q.1 q.2 (header st) (draw_color st)).
Proof.
  intros Hf. revert st.
  induction Hf as [|[lms img] p frames pts Hd _ IH]; intros st Hpts Hlast.
  { by destruct st. }
  cbn zeta. rewrite last_cons_default.
  apply Forall_cons_1 in Hpts as [Hp Hpts].
  destruct Hd as (fs & ix & mi & Hfs & Hix & Hmi & Ti & Tm & Htip). cbn in *.
  rewrite (drawing_frame _ _ _ _ _ _ _ Hfs Hix Hmi Ti Tm). cbn.
  unfold draw_mode. subst p.
  rewrite continueStroke_next by done.
  by rewrite IH.
Qed.

(** X13: a run of drawing frames that starts with no last point, none of
    its fingertips at the pixel (0, 0), draws the dot at the first fingertip
    and then the segments joining each fingertip to the next, all in the
    active colour, and ends with the last fingertip as last point. *)
Theorem drawing_run_is_polyline
    (frames : list (list landmark * image)) p ps st :
  last_x st = 0 → last_y st = 0 →
  Forall2 (λ f q, drawing_at f.1 q) frames (p :: ps) →
  Forall (λ q, q ≠ (0, 0)) (p :: ps) →
  let q := List.last ps p in
  gestures overlay_list frames st =
    Ok (mkState (polyline (img_canvas st) p (p :: ps) (draw_color st))
          q.1 q.2 (header st) (draw_color st)).
Proof.
  intros Hx Hy Hf Hpts q.
  apply Forall2_cons_inv_r in Hf as ([lms img] & frames' & Hd & Hf & ->).
  apply Forall_cons_1 in Hpts as [Hp Hpts].
  destruct Hd as (fs & ix & mi & Hfs & Hix & Hmi & Ti & Tm & Htip). cbn in *.
  rewrite (drawing_frame _ _ _ _ _ _ _ Hfs Hix Hmi Ti Tm). cbn.
  unfold draw_mode. subst p q.
  rewrite continueStroke_fresh by done.
  by rewrite (strokes_from _ _ _ Hf Hpts).
Qed.
End Runs.

Lemma same_shape_sized (a b : image) h w :
  same_shape a b = true → sized h w a → sized h w b.
Proof.
  unfold same_shape. rewrite bool_decide_eq_true, !sized_lengths. congruence.
Qed.

Lemma sized_same_shape (a b : image) h w :
  sized h w a → sized h w b → same_shape a b = true.
Proof.
  unfold same_shape. rewrite bool_decide_eq_true, !sized_lengths. congruence.
Qed.

Lemma same_shape_sym {A B} (a : list (list A)) (b : list (list B)) :
  same_shape a b = true → same_shape b a = true.
Proof. unfold same_shape. rewrite !bool_decide_eq_true. congruence. Qed.

(** X20: clearing a cleared canvas changes nothing. *)
Theorem clear_canvas_twice st : clear_canvas (clear_canvas st) = clear_canvas st.
Proof.
  unfold clear_canvas, shape. destruct (img_canvas st) as [|row rest]; [done|].
  cbn. unfold set_canvas. cbn. by rewrite !length_replicate.
Qed.

Section Shapes.
Context `{cv : Cv2}.
Variable overlay_list : list image.
Local Arguments clear_canvas : simpl never.
Local Arguments selection_mode : simpl never.
Local Arguments merge : simpl never.
Local Arguments merge_canvas : simpl never.
Local Arguments paste_header : simpl never.

Lemma continueStroke_canvas x1 y1 st :
  ∃ from, img_canvas (continueStroke x1 y1 st) =
            cv2_line (img_canvas st) from (x1, y1) (draw_color st)
              POINTER_THICKNESS.
Proof. unfold continueStroke. destruct (_ && _); cbn; eauto. Qed.

Lemma selection_mode_image x1 y1 x2 y2 st img st' img' :
  selection_mode overlay_list x1 y1 x2 y2 st img = Ok (st', img') →
  img' = cv2_rectangle img (x1, y1 - 25) (x2, y2 + 25) (draw_color st')
  ∧ (header st' = header st ∨ header st' ∈ overlay_list).
Proof.
  unfold selection_mode. intros Hsel. case_bool_decide.
  - destruct (select_tool _ _ _) as [s|] eqn:Htool; [|done].
    cbn in Hsel. injection Hsel as <- <-. split; [done|].
    rewrite select_tool_region in Htool.
    destruct (Toolbar.region_of _) as [i|]; [|injection Htool as <-; by left].
    unfold getitem in Htool. destruct (overlay_list !! i) as [h|] eqn:Hi; [|done].
    injection Htool as <-. right. cbn. by eapply list_elem_of_lookup_2.
  - cbn in Hsel. injection Hsel as <- <-. split; [done|by left].
Qed.

Lemma handle_gestures_shapes (lms : list landmark) st img st' img' h w hi wi :
  keeps_shape →
  handle_gestures overlay_list lms st img = Ok (st', img') →
  sized h w (img_canvas st) → sized hi wi img →
  sized h w (img_canvas st') ∧ sized hi wi img'
  ∧ (header st' = header st ∨ header st' ∈ overlay_list).
Proof.
  intros (Hline & Hrect & Hcirc) Hstep Hc Hi.
  destruct (handle_gestures_cases _ _ _ _ _ _ Hstep)
    as [[-> ->] | [(st1 & Hsel & Hst') | [_ Hdraw]]]; [by auto| |].
  - destruct (selection_mode_image _ _ _ _ _ _ _ _ Hsel) as [-> Hh].
    apply selection_mode_effect in Hsel as (_ & _ & Hcan).
    split_and!.
    + destruct Hst' as [-> | [-> _]]; [by rewrite Hcan|].
      apply clear_canvas_sized. by rewrite Hcan.
    + eapply same_shape_sized; [apply Hrect|done].
    + destruct Hst' as [-> | [-> _]]; [done|].
      by destruct (clear_canvas_spec st1) as (_ & _ & _ & -> & _).
  - unfold draw_mode in Hdraw. injection Hdraw as -> ->. split_and!.
    + destruct (continueStroke_canvas (X lms 8) (Y lms 8) st) as [from ->].
      eapply same_shape_sized; [apply Hline|done].
    + eapply same_shape_sized; [apply Hcirc|done].
    + left. by destruct (continueStroke_tool (X lms 8) (Y lms 8) st) as [-> _].
Qed.

(** X14: the canvas keeps its number of rows and columns through any run
    of frames, given that [cv2.line] keeps the shape of the array. *)
Theorem canvas_keeps_size frames st st' h w :
  keeps_shape →
  sized h w (img_canvas st) →
  gestures overlay_list frames st = Ok st' →
  sized h w (img_canvas st').
Proof.
  intros Hk Hc Hrun.
  eapply (gestures_invariant overlay_list (λ s, sized h w (img_canvas s)));
    [|exact Hc|exact Hrun].
  intros lms img s s' img' Hstep Hs.
  destruct (handle_gestures_cases _ _ _ _ _ _ Hstep)
    as [[-> _] | [(st1 & Hsel & Hst') | [_ Hdraw]]]; [done| |].
  - apply selection_mode_effect in Hsel as (_ & _ & Hcan).
    destruct Hst' as [-> | [-> _]]; [by rewrite Hcan|].
    apply clear_canvas_sized. by rewrite Hcan.
  - unfold draw_mode in Hdraw. injection Hdraw as -> _.
    destruct (continueStroke_canvas (X lms 8) (Y lms 8) s) as [from ->].
    destruct Hk as (Hline & _). eapply same_shape_sized; [apply Hline|done].
Qed.

Lemma paste_header_sized (img header : image) h w :
  fits h w header → sized h w img →
  ∃ pasted, paste_header img header = Ok pasted ∧ sized h w pasted.
Proof.
  intros (hh & hw & [Hhh Hhr] & Hle1 & Hle2) [Hih Hir].
  unfold paste_header.
  assert (Hfit : (let '(hh', hw') := shape header in
                  let '(ih, iw) := shape img in
                  (hh' = hh ∧ ih = h ∧ (hh' ≤ ih ∧ hw' ≤ iw)
                   ∧ (header = [] ∨ hw' = hw))%nat)).
  { unfold shape. destruct header as [|hrow hrest]; cbn in *.
    - split_and!; [done..|lia|lia|by left].
    - apply Forall_cons_1 in Hhr as [Hhw _].
      destruct img as [|row rest]; cbn in *; [lia|].
      apply Forall_cons_1 in Hir as [Hw _]. split_and!; [done|done|lia|lia|by right]. }
  destruct (shape header) as [hh' hw'], (shape img) as [ih iw].
  destruct Hfit as (-> & -> & Hfit & Hhw).
  rewrite bool_decide_eq_true_2 by done. eexists. split; [done|].
  split.
  - rewrite length_app, length_zip_with, length_take, length_drop. lia.
  - unfold rectangular in *. apply Forall_app. split.
    + apply Forall_lookup. intros i row Hrow.
      apply lookup_zip_with_Some in Hrow as (hrow & irow & -> & Hh & Hi).
      destruct Hhw as [-> | ->]; [done|].
      apply lookup_take_Some in Hi as [Hi _].
      rewrite length_app, length_drop.
      rewrite (Forall_lookup_1 _ _ _ _ Hhr Hh), (Forall_lookup_1 _ _ _ _ Hir Hi).
      lia.
    + by apply Forall_drop.
Qed.

Lemma merge_canvas_sized (img canvas : image) h w :
  sized h w img → sized h w canvas →
  ∃ out, merge_canvas img canvas = Ok out ∧ sized h w out.
Proof.
  intros Hi Hc. rewrite merge_canvas_pixelwise.
  pose proof (sized_same_shape _ _ _ _ Hi Hc) as Hs. rewrite Hs.
  eexists. split; [done|]. apply sized_lengths.
  rewrite zip_with_rows_shape by by apply same_shape_Forall2.
  by apply sized_lengths.
Qed.

Lemma merge_Ok (img header canvas : image) h w :
  fits h w header → sized h w img → sized h w canvas →
  ∃ out, merge img header canvas = Ok out ∧ sized h w out.
Proof.
  intros Hh Hi Hc. unfold merge.
  destruct (paste_header_sized _ _ _ _ Hh Hi) as (pasted & -> & Hp). cbn.
  by apply merge_canvas_sized.
Qed.

Lemma header_still_fits st st' h w :
  Forall (fits h w) overlay_list → fits h w (header st) →
  header st' = header st ∨ header st' ∈ overlay_list →
  fits h w (header st').
Proof.
  intros Hfits Hh [-> | Hin]; [done|].
  apply list_elem_of_lookup_1 in Hin as [i Hin].
  by eapply Forall_lookup_1.
Qed.

(** X15: one round of lines 41-80 never raises and shows a frame of the
    camera frame's size, when the landmark list is empty or has at least 21
    entries, four header images are loaded and all fit into the frame, and
    canvas and frame have the same size; the canvas size and the fitting
    header are kept for the next round. *)
Theorem frame_never_raises (lms : list landmark) img st h w :
  keeps_shape →
  lms = [] ∨ (21 ≤ length lms)%nat →
  (4 ≤ length overlay_list)%nat →
  Forall (fits h w) overlay_list →
  fits h w (header st) →
  sized h w (img_canvas st) →
  sized h w img →
  ∃ st' out,
    frame overlay_list lms img st = Ok (st', out)
    ∧ sized h w out
    ∧ sized h w (img_canvas st')
    ∧ fits h w (header st').
Proof.
  intros Hk Hlms Hov Hfits Hh Hc Hi. unfold frame.
  destruct (handle_gestures_Ok overlay_list lms st img Hlms Hov)
    as (st1 & img1 & Hstep). rewrite Hstep. cbn.
  destruct (handle_gestures_shapes _ _ _ _ _ _ _ _ _ Hk Hstep Hc Hi)
    as (Hc1 & Hi1 & Hh1).
  pose proof (header_still_fits _ _ _ _ Hfits Hh Hh1) as Hfit1.
  destruct (merge_Ok _ _ _ _ _ Hfit1 Hi1 Hc1) as (out & -> & Ho). cbn.
  by exists st1, out.
Qed.

End Shapes.

Lemma zip_with_ext_Forall {A B C} (f g : A → B → C) (l : list A)
    (k : list B) :
  Forall (λ y, ∀ x, f x y = g x y) k → zip_with f l k = zip_with g l k.
Proof.
  intros Hk. revert l. induction Hk as [|y k Hy _ IH]; intros [|x l]; cbn;
    [done..|]. by rewrite Hy, IH.
Qed.

Section MorePixels.
Context `{cv : Cv2}.

Lemma paste_header_outside (img header pasted : image) hw r c :
  paste_header img header = Ok pasted →
  rectangular hw header →
  (length header ≤ r ∨ hw ≤ c)%nat →
  pixel_at pasted r c = pixel_at img r c.
Proof.
  unfold paste_header, pixel_at. intros Hp Hrect Hout.
  destruct (shape header) as [hh hw'] eqn:Hsh.
  destruct (shape img) as [ih iw] eqn:Hsi.
  case_bool_decide as Hfit; [|done]. destruct Hfit as [Hrows _].
  injection Hp as <-.
  assert (hh = length header) as -> by (unfold shape in Hsh; congruence).
  assert (ih = length img) as -> by (unfold shape in Hsi; congruence).
  destruct (decide (r < length header)%nat) as [Hr|Hr].
  - destruct Hout as [?|Hc]; [lia|].
    destruct (lookup_lt_is_Some_2 header r Hr) as [hrow Ehr].
    destruct (lookup_lt_is_Some_2 img r) as [row Erow]; [lia|].
    rewrite lookup_app_l by (rewrite length_zip_with, length_take; lia).
    rewrite lookup_zip_with, Ehr. cbn.
    rewrite lookup_take_lt, Erow by lia. cbn.
    assert (length hrow = hw) by (by eapply (Forall_lookup_1 _ _ _ _ Hrect)).
    assert (hw' = hw) as ->.
    { unfold shape in Hsh. destruct header as [|h0 hrest]; [done|].
      apply Forall_cons_1 in Hrect as [? _]. congruence. }
    rewrite lookup_app_r by lia. rewrite lookup_drop. f_equal. lia.
  - rewrite lookup_app_r by (rewrite length_zip_with, length_take; lia).
    rewrite length_zip_with, length_take, lookup_drop.
    replace (length header + (r - length header `min`
               (length header `min` length img)))%nat with r by lia.
    done.
Qed.

Lemma merge_pixel (img header canvas out pasted : image) r c p :
  paste_header img header = Ok pasted →
  merge img header canvas = Ok out →
  pixel_at pasted r c = Some p →
  ∃ cp, pixel_at canvas r c = Some cp
        ∧ pixel_at out r c = Some (composite_pixel p cp).
Proof.
  unfold merge. intros Hp Hm Hpx. rewrite Hp in Hm. cbn in Hm.
  rewrite merge_canvas_pixelwise in Hm.
  destruct (same_shape pasted canvas) eqn:Hs; [|done]. injection Hm as <-.
  destruct (same_shape_pixel_at _ _ _ _ _ Hs Hpx) as [cp Hc].
  exists cp. split; [done|]. by apply pixel_at_zip_with.
Qed.

(** X16: a canvas pixel whose grey value is above 50 appears unchanged in
    the merged frame, whatever the camera frame and the header hold
    there. *)
Theorem merge_shows_paint (img header canvas out : image) r c cp :
  merge img header canvas = Ok out →
  pixel_at canvas r c = Some cp →
  cv2_gray cp > 50 →
  pixel_at out r c = Some cp.
Proof.
  intros Hm Hc Hg. pose proof Hm as Hm'. unfold merge in Hm'.
  destruct (paste_header img header) as [pasted|] eqn:Hp; [|done].
  cbn in Hm'. rewrite merge_canvas_pixelwise in Hm'.
  destruct (same_shape pasted canvas) eqn:Hs; [|done].
  destruct (same_shape_pixel_at _ _ _ _ _ (same_shape_sym _ _ Hs) Hc)
    as [p Hpx].
  destruct (merge_pixel _ _ _ _ _ _ _ _ Hp Hm Hpx) as (cp' & Hc' & ->).
  rewrite Hc in Hc'. injection Hc' as <-. f_equal.
  unfold composite_pixel, mask_pixel, channelwise.
  rewrite bool_decide_eq_true_2 by done. destruct cp as [[b g] r']. cbn.
  by rewrite !Z.land_0_r.
Qed.

(** X17: outside the header's rectangle a pixel of the merged frame is the
    canvas pixel where the canvas's grey value is above 50, and the bitwise
    OR of the camera pixel and the canvas pixel elsewhere. *)
Theorem merge_outside_header (img header canvas out : image) hw r c p :
  merge img header canvas = Ok out →
  rectangular hw header →
  (length header ≤ r ∨ hw ≤ c)%nat →
  pixel_at img r c = Some p →
  uint8_pixel p →
  ∃ cp,
    pixel_at canvas r c = Some cp
    ∧ pixel_at out r c =
        Some (if bool_decide (cv2_gray cp > 50) then cp
              else channelwise Z.lor p cp).
Proof.
  intros Hm Hrect Hout Hpx Hu. pose proof Hm as Hm'. unfold merge in Hm'.
  destruct (paste_header img header) as [pasted|] eqn:Hp; [|done].
  rewrite <-(paste_header_outside _ _ _ _ _ _ Hp Hrect Hout) in Hpx.
  destruct (merge_pixel _ _ _ _ _ _ _ _ Hp Hm Hpx) as (cp & Hc & ->).
  exists cp. split; [done|]. by rewrite composite_pixel_cases.
Qed.

(** X18: when frame and canvas have the same shape, the mask compositing
    of lines 76-80 succeeds, its result has that shape too, and each of its
    pixels is [(p AND mask) OR c] for the frame pixel [p] and the canvas
    pixel [c] at the same place, the mask being 0 where the grey value of
    [c] is above 50 and 255 elsewhere. *)
Theorem merge_canvas_outcome (img canvas : image) :
  same_shape img canvas = true →
  ∃ out,
    merge_canvas img canvas = Ok out
    ∧ same_shape img out = true
    ∧ ∀ r c p cp,
        pixel_at img r c = Some p → pixel_at canvas r c = Some cp →
        pixel_at out r c =
          Some (channelwise Z.lor
                  (channelwise Z.land p
                     (if bool_decide (cv2_gray cp > 50) then (0, 0, 0)
                      else (255, 255, 255)))
                  cp).
Proof.
  intros Hs. rewrite merge_canvas_pixelwise, Hs.
  eexists. split_and!; [done| |].
  - apply bool_decide_eq_true. symmetry.
    apply zip_with_rows_shape. by apply same_shape_Forall2.
  - intros r c p cp Hp Hc.
    rewrite (pixel_at_zip_with _ _ _ _ _ _ _ Hp Hc).
    unfold composite_pixel, mask_pixel. by case_bool_decide.
Qed.

Lemma composite_pixel_twice (p c : pixel) :
  uint8_pixel c →
  composite_pixel (composite_pixel p c) c = composite_pixel p c.
Proof.
  intros (Hb & Hg & Hr). destruct p as [[b g] r], c as [[cb cg] cr].
  cbn in *. unfold composite_pixel, mask_pixel, channelwise.
  case_bool_decide; cbn.
  - by rewrite !Z.land_0_r.
  - rewrite !Z.land_lor_distr_l, <-!Z.land_assoc, !Z.land_diag.
    rewrite !(land_255 cb), !(land_255 cg), !(land_255 cr) by done.
    by rewrite <-!Z.lor_assoc, !Z.lor_diag.
Qed.

(** X19: compositing the same uint8 canvas a second time onto the result
    changes nothing. *)
Theorem merge_canvas_twice (img canvas out : image) :
  merge_canvas img canvas = Ok out →
  uint8_image canvas →
  merge_canvas out canvas = Ok out.
Proof.
  intros Hm Hu. rewrite merge_canvas_pixelwise in Hm.
  destruct (same_shape img canvas) eqn:Hs; [|done]. injection Hm as <-.
  rewrite merge_canvas_pixelwise.
  assert (same_shape (zip_with (zip_with composite_pixel) img canvas) canvas
          = true) as ->.
  { apply bool_decide_eq_true. rewrite zip_with_rows_shape
      by by apply same_shape_Forall2.
    by apply bool_decide_eq_true in Hs. }
  f_equal. rewrite rows_zip_with_zip_with_l.
  rewrite !(zip_with_ext_Forall _ (zip_with composite_pixel)); [done|].
  eapply Forall_impl; [|exact Hu]. intros row Hrow rimg. cbn in Hrow.
  apply zip_with_ext_Forall.
  eapply Forall_impl; [|exact Hrow]. intros c Hc p.
  by apply composite_pixel_twice.
Qed.
End MorePixels.

Section RoundFacts.
Context `{cv : Cv2}.
Variable overlay_list : list image.
Variable float : Type.
Variable to_pixel : float → nat → Z.
Variable cv2_ring : image → point → Z → pixel → Z → image.
Local Arguments merge : simpl never.

(** X21: a round of lines 38-80 never raises when every hand the pose
    model reports has 21 landmarks, under the conditions of X15 on header
    images, canvas and frame. *)
Theorem round_never_raises
    (multi_hand_landmarks : option (list (list (float * float)))) img st h w :
  keeps_shape →
  mediapipe_hands multi_hand_landmarks →
  (4 ≤ length overlay_list)%nat →
  Forall (fits h w) overlay_list →
  fits h w (header st) →
  sized h w (img_canvas st) →
  sized h w img →
  ∃ st' out,
    round overlay_list float to_pixel cv2_ring multi_hand_landmarks img st
      = Ok (st', out)
    ∧ sized h w out
    ∧ sized h w (img_canvas st')
    ∧ fits h w (header st').
Proof.
  intros Hk Hmp Hov Hfits Hh Hc Hi.
  assert (Hlist : ∃ lms : list landmark,
    (lms = [] ∨ (21 ≤ length lms)%nat)
    ∧ getLandmarkPositions float to_pixel cv2_ring multi_hand_landmarks img 0
        false = Ok (lms, img)).
  { unfold Detection.getLandmarkPositions.
    destruct (shape img) as [height width].
    destruct multi_hand_landmarks as [[|hand hands]|]; cbn;
      [by exists []; auto| |by exists []; auto].
    cbn in Hmp. apply Forall_cons_1 in Hmp as [Hlen _].
    rewrite (surjective_pairing (positions _ _ _ _ _ _ _ _ _ _)).
    rewrite positions_list, positions_no_draw. cbn.
    eexists. split; [|done]. right. rewrite length_imap. lia. }
  destruct Hlist as (lms & Hlms & Hpos).
  unfold MainLoop.round. rewrite Hpos. cbn. unfold frame.
  destruct (handle_gestures_Ok overlay_list lms st img Hlms Hov)
    as (st1 & img1 & Hstep). rewrite Hstep. cbn.
  destruct (handle_gestures_shapes _ _ _ _ _ _ _ _ _ _ Hk Hstep Hc Hi)
    as (Hc1 & Hi1 & Hh1).
  pose proof (header_still_fits _ _ _ _ _ Hfits Hh Hh1) as Hfit1.
  destruct (merge_Ok _ _ _ _ _ Hfit1 Hi1 Hc1) as (out & -> & Ho). cbn.
  by exists st1, out.
Qed.
End RoundFacts.

(** ** The reference rasteriser keeps what OpenCV promises *)

Lemma draws_in_same_shape col (a b : image) :
  draws_in col a b → same_shape a b = true.
Proof.
  intros Hd. apply same_shape_Forall2.
  induction Hd as [|r s a b Hrs _ IH]; constructor; [|done].
  by eapply Forall2_length.
Qed.

Lemma raster_keeps_shape : keeps_shape (cv := Raster.cv2).
Proof.
  split_and!; intros; eapply draws_in_same_shape, paint_draws_in.
Qed.

(** ** The further properties at concrete frames *)

Import Scenes Footage.

Ltac sized_by_lengths := apply sized_lengths; reflexivity.
Ltac fits_by_lengths hh hw :=
  exists hh, hw; split_and!; [sized_by_lengths | cbn; lia | cbn; lia].
Ltac drawing_at_by_eval :=
  exists [0; 1; 0; 0; 0], 1, 0;
  split_and!; [vm_compute; reflexivity | reflexivity..].

Lemma fingersUp_affine_witness :
  0 < 2 ∧ 0 < 3
  ∧ fingersUp (affine 2 (-30) 3 7 open_hand) = fingersUp open_hand.
Proof.
  split_and!; [lia | lia |].
  apply (fingersUp_affine 2 (-30) 3 7 open_hand); lia.
Defined.

Lemma fingersUp_mirror_witness :
  -1 < 0 ∧ 0 < 1
  ∧ X open_hand 4 ≠ X open_hand 20
  ∧ fingersUp (affine (-1) 1279 1 0 open_hand) = fingersUp open_hand.
Proof.
  assert (Hne : X open_hand 4 ≠ X open_hand 20) by (vm_compute; discriminate).
  split_and!; [lia | lia | exact Hne |].
  apply (fingersUp_mirror (-1) 1279 1 0 open_hand); [lia | lia | exact Hne].
Defined.

Lemma getLandmarkPositions_enumerates_witness :
  [three_landmarks] !! 0%nat = Some three_landmarks
  ∧ let lmList :=
      imap (λ i lm, (Z.of_nat i, permille_to_pixel lm.1 (shape camera).2,
                      permille_to_pixel lm.2 (shape camera).1))
        three_landmarks in
    getLandmarkPositions Z permille_to_pixel ring (Some [three_landmarks])
      camera 0 false = Ok (lmList, camera)
    ∧ ∃ img', getLandmarkPositions Z permille_to_pixel ring
                (Some [three_landmarks]) camera 0 true = Ok (lmList, img').
Proof.
  split; [reflexivity|].
  apply (getLandmarkPositions_enumerates Z permille_to_pixel ring
           [three_landmarks] three_landmarks camera 0); reflexivity.
Defined.

Lemma round_without_hand_witness :
  (@None (list (list (Z * Z))) = None ∨ @None (list (list (Z * Z))) = Some [])
  ∧ round (cv:=Raster.cv2) overlay_list Z permille_to_pixel ring None camera
      mid_stroke
    = (out ← merge (cv:=Raster.cv2) camera (header mid_stroke)
               (img_canvas mid_stroke);
       Ok (mid_stroke, out)).
Proof.
  split; [by left|].
  apply (round_without_hand (cv:=Raster.cv2) overlay_list Z permille_to_pixel
           ring None camera mid_stroke). by left.
Defined.

Lemma handle_gestures_raises_iff_witness :
  (4 ≤ length overlay_list)%nat
  ∧ (((0 < length (take 5 open_hand) < 21)%nat
      ∧ handle_gestures (cv:=Raster.cv2) overlay_list (take 5 open_hand)
          mid_stroke camera = Raise IndexError)
     ∨ ((take 5 open_hand = [] ∨ (21 ≤ length (take 5 open_hand))%nat)
        ∧ ∃ st' img',
            handle_gestures (cv:=Raster.cv2) overlay_list (take 5 open_hand)
              mid_stroke camera = Ok (st', img'))).
Proof.
  split; [cbn; lia|].
  apply (handle_gestures_raises_iff (cv:=Raster.cv2) overlay_list
           (take 5 open_hand) mid_stroke camera). cbn; lia.
Defined.

Lemma selecting_missing_header_witness :
  fingersUp (select_at (1100, 50)) = Ok [0; 1; 1; 0; 0]
  ∧ truthy 1 = true
  ∧ Y (select_at (1100, 50)) 8 < 100
  ∧ Toolbar.region_of (X (select_at (1100, 50)) 8) = Some 3%nat
  ∧ (length (take 3 overlay_list) ≤ 3)%nat
  ∧ handle_gestures (cv:=Raster.cv2) (take 3 overlay_list)
      (select_at (1100, 50)) mid_stroke camera = Raise IndexError.
Proof.
  assert (Hy : Y (select_at (1100, 50)) 8 < 100) by (vm_compute; reflexivity).
  split_and!;
    [vm_compute; reflexivity | reflexivity | exact Hy | reflexivity
    | cbn; lia |].
  apply (selecting_missing_header (cv:=Raster.cv2) (take 3 overlay_list)
           (select_at (1100, 50)) mid_stroke camera [0; 1; 1; 0; 0] 1 1 3);
    [vm_compute; reflexivity | reflexivity.. | exact Hy | reflexivity
    | cbn; lia].
Defined.

(** [selecting_lifts_pen] at a frame with all five fingers up, in the middle
    of a stroke on a canvas that holds a red pixel. *)
Lemma selecting_lifts_pen_witness :
  fingersUp open_hand = Ok [1; 1; 1; 1; 1]
  ∧ truthy 1 = true
  ∧ handle_gestures (cv:=Raster.cv2) overlay_list open_hand dotted_mid_stroke
      camera
    = Ok (mkState (np_zeros 8 8) 0 0 (plain 2 3 (10, 20, 30)) RED,
          Raster.rectangle camera (100, 25) (200, 225) RED)
  ∧ last_x (mkState (np_zeros 8 8) 0 0 (plain 2 3 (10, 20, 30)) RED) = 0
  ∧ last_y (mkState (np_zeros 8 8) 0 0 (plain 2 3 (10, 20, 30)) RED) = 0
  ∧ ((¬ Forall (λ v, v = 1) [1; 1; 1; 1; 1]
      ∧ np_zeros 8 8 = img_canvas dotted_mid_stroke)
     ∨ (Forall (λ v, v = 1) [1; 1; 1; 1; 1]
        ∧ np_zeros 8 8 =
            np_zeros (shape (img_canvas dotted_mid_stroke)).1
              (shape (img_canvas dotted_mid_stroke)).2
        ∧ background (np_zeros 8 8))).
Proof.
  split_and!;
    [vm_compute; reflexivity | reflexivity | vm_compute; reflexivity |..];
  apply (selecting_lifts_pen (cv:=Raster.cv2) overlay_list open_hand
           dotted_mid_stroke camera [1; 1; 1; 1; 1] 1 1
           (mkState (np_zeros 8 8) 0 0 (plain 2 3 (10, 20, 30)) RED)
           (Raster.rectangle camera (100, 25) (200, 225) RED));
    [vm_compute; reflexivity | reflexivity.. | vm_compute; reflexivity].
Defined.

Lemma canvas_changes_by_draw_or_clear_witness :
  handle_gestures (cv:=Raster.cv2) overlay_list (draw_at (5, 6)) mid_stroke
    camera
  = Ok (mkState
          (Raster.line (np_zeros 8 8) (100, 100) (5, 6) RED POINTER_THICKNESS)
          5 6 (plain 2 3 (10, 20, 30)) RED,
        Raster.circle camera (5, 6) POINTER_THICKNESS RED)
  ∧ (Raster.line (np_zeros 8 8) (100, 100) (5, 6) RED POINTER_THICKNESS
       = img_canvas mid_stroke
     ∨ (∃ from,
          drawing_at (draw_at (5, 6)) (5, 6)
          ∧ (from = (last_x mid_stroke, last_y mid_stroke) ∨ from = (5, 6))
          ∧ Raster.line (np_zeros 8 8) (100, 100) (5, 6) RED POINTER_THICKNESS
            = cv2_line (Cv2:=Raster.cv2) (img_canvas mid_stroke) from (5, 6)
                (draw_color mid_stroke) POINTER_THICKNESS)
     ∨ (fingersUp (draw_at (5, 6)) = Ok [1; 1; 1; 1; 1]
        ∧ background
            (Raster.line (np_zeros 8 8) (100, 100) (5, 6) RED
               POINTER_THICKNESS))).
Proof.
  split; [vm_compute; reflexivity|].
  apply (canvas_changes_by_draw_or_clear (cv:=Raster.cv2) overlay_list
           (draw_at (5, 6)) mid_stroke camera
           (mkState
              (Raster.line (np_zeros 8 8) (100, 100) (5, 6) RED
                 POINTER_THICKNESS)
              5 6 (plain 2 3 (10, 20, 30)) RED)
           (Raster.circle camera (5, 6) POINTER_THICKNESS RED)).
  vm_compute; reflexivity.
Defined.

Lemma header_matches_colour_witness :
  initial overlay_list
    = Ok (mkState (np_zeros HEIGHT WIDTH) 0 0 (plain 2 3 (10, 20, 30)) RED)
  ∧ gestures (cv:=Raster.cv2) overlay_list [(select_at (400, 50), camera)]
      (mkState (np_zeros HEIGHT WIDTH) 0 0 (plain 2 3 (10, 20, 30)) RED)
    = Ok (mkState (np_zeros HEIGHT WIDTH) 0 0 (plain 2 3 (40, 50, 60)) BLUE)
  ∧ tool_paired overlay_list
      (mkState (np_zeros HEIGHT WIDTH) 0 0 (plain 2 3 (40, 50, 60)) BLUE).
Proof.
  assert (Hrun :
    gestures (cv:=Raster.cv2) overlay_list [(select_at (400, 50), camera)]
      (mkState (np_zeros HEIGHT WIDTH) 0 0 (plain 2 3 (10, 20, 30)) RED)
    = Ok (mkState (np_zeros HEIGHT WIDTH) 0 0 (plain 2 3 (40, 50, 60)) BLUE)).
  { generalize (np_zeros HEIGHT WIDTH). intros canvas. reflexivity. }
  split_and!; [reflexivity | exact Hrun |].
  apply (header_matches_colour (cv:=Raster.cv2) overlay_list
           [(select_at (400, 50), camera)]
           (mkState (np_zeros HEIGHT WIDTH) 0 0 (plain 2 3 (10, 20, 30)) RED));
    [reflexivity | exact Hrun].
Defined.

Lemma drawing_run_is_polyline_witness :
  last_x (start 32) = 0 ∧ last_y (start 32) = 0
  ∧ Forall2 (λ f q, drawing_at f.1 q) stroke_frames [(5, 5); (9, 7); (2, 30)]
  ∧ Forall (λ q : point, q ≠ (0, 0)) [(5, 5); (9, 7); (2, 30)]
  ∧ let q := List.last [(9, 7); (2, 30)] (5, 5) in
    gestures (cv:=Raster.cv2) overlay_list stroke_frames (start 32) =
      Ok (mkState
            (polyline (cv:=Raster.cv2) (img_canvas (start 32)) (5, 5)
               [(5, 5); (9, 7); (2, 30)] (draw_color (start 32)))
            q.1 q.2 (header (start 32)) (draw_color (start 32))).
Proof.
  assert (Hd : Forall2 (λ f q, drawing_at f.1 q) stroke_frames
                 [(5, 5); (9, 7); (2, 30)])
    by (repeat constructor; drawing_at_by_eval).
  assert (Hp : Forall (λ q : point, q ≠ (0, 0)) [(5, 5); (9, 7); (2, 30)])
    by (repeat constructor; discriminate).
  split_and!; [reflexivity | reflexivity | exact Hd | exact Hp |].
  apply (drawing_run_is_polyline (cv:=Raster.cv2) overlay_list stroke_frames
           (5, 5) [(9, 7); (2, 30)] (start 32));
    [reflexivity | reflexivity | exact Hd | exact Hp].
Defined.

Lemma canvas_keeps_size_witness :
  keeps_shape (cv:=Raster.cv2)
  ∧ sized 8 8 (img_canvas (start 8))
  ∧ gestures (cv:=Raster.cv2) overlay_list mixed_frames (start 8)
    = Ok (mkState
            (Raster.line
               (Raster.line (np_zeros 8 8) (5, 5) (5, 5) RED POINTER_THICKNESS)
               (9, 7) (9, 7) BLUE POINTER_THICKNESS)
            9 7 (plain 2 3 (40, 50, 60)) BLUE)
  ∧ sized 8 8
      (Raster.line
         (Raster.line (np_zeros 8 8) (5, 5) (5, 5) RED POINTER_THICKNESS)
         (9, 7) (9, 7) BLUE POINTER_THICKNESS).
Proof.
  assert (Hs : sized 8 8 (img_canvas (start 8))) by sized_by_lengths.
  split_and!; [exact raster_keeps_shape | exact Hs | vm_compute; reflexivity |].
  apply (canvas_keeps_size (cv:=Raster.cv2) overlay_list mixed_frames (start 8)
           (mkState
              (Raster.line
                 (Raster.line (np_zeros 8 8) (5, 5) (5, 5) RED
                    POINTER_THICKNESS)
                 (9, 7) (9, 7) BLUE POINTER_THICKNESS)
              9 7 (plain 2 3 (40, 50, 60)) BLUE) 8 8);
    [exact raster_keeps_shape | exact Hs | vm_compute; reflexivity].
Defined.

Lemma overlay_list_fits : Forall (fits 8 8) overlay_list.
Proof. repeat constructor; fits_by_lengths 2%nat 3%nat. Qed.

Lemma frame_never_raises_witness :
  keeps_shape (cv:=Raster.cv2)
  ∧ (open_hand = [] ∨ (21 ≤ length open_hand)%nat)
  ∧ (4 ≤ length overlay_list)%nat
  ∧ Forall (fits 8 8) overlay_list
  ∧ fits 8 8 (header dotted_state)
  ∧ sized 8 8 (img_canvas dotted_state)
  ∧ sized 8 8 camera
  ∧ ∃ st' out,
      frame (cv:=Raster.cv2) overlay_list open_hand camera dotted_state
        = Ok (st', out)
      ∧ sized 8 8 out
      ∧ sized 8 8 (img_canvas st')
      ∧ fits 8 8 (header st').
Proof.
  assert (Hh : fits 8 8 (header dotted_state)) by fits_by_lengths 2%nat 3%nat.
  assert (Hc : sized 8 8 (img_canvas dotted_state)) by sized_by_lengths.
  assert (Hi : sized 8 8 camera) by sized_by_lengths.
  split_and!;
    [exact raster_keeps_shape | right; cbn; lia | cbn; lia
    | exact overlay_list_fits | exact Hh | exact Hc | exact Hi |].
  apply (frame_never_raises (cv:=Raster.cv2) overlay_list open_hand camera
           dotted_state 8 8);
    [exact raster_keeps_shape | right; cbn; lia | cbn; lia
    | exact overlay_list_fits | exact Hh | exact Hc | exact Hi].
Defined.

Lemma round_never_raises_witness :
  keeps_shape (cv:=Raster.cv2)
  ∧ mediapipe_hands (Some [still_hand])
  ∧ (4 ≤ length overlay_list)%nat
  ∧ Forall (fits 8 8) overlay_list
  ∧ fits 8 8 (header dotted_state)
  ∧ sized 8 8 (img_canvas dotted_state)
  ∧ sized 8 8 camera
  ∧ ∃ st' out,
      round (cv:=Raster.cv2) overlay_list Z permille_to_pixel ring
        (Some [still_hand]) camera dotted_state = Ok (st', out)
      ∧ sized 8 8 out
      ∧ sized 8 8 (img_canvas st')
      ∧ fits 8 8 (header st').
Proof.
  assert (Hm : mediapipe_hands (Some [still_hand]))
    by (repeat constructor).
  assert (Hh : fits 8 8 (header dotted_state)) by fits_by_lengths 2%nat 3%nat.
  assert (Hc : sized 8 8 (img_canvas dotted_state)) by sized_by_lengths.
  assert (Hi : sized 8 8 camera) by sized_by_lengths.
  split_and!;
    [exact raster_keeps_shape | exact Hm | cbn; lia
    | exact overlay_list_fits | exact Hh | exact Hc | exact Hi |].
  apply (round_never_raises (cv:=Raster.cv2) overlay_list Z permille_to_pixel
           ring (Some [still_hand]) camera dotted_state 8 8);
    [exact raster_keeps_shape | exact Hm | cbn; lia
    | exact overlay_list_fits | exact Hh | exact Hc | exact Hi].
Defined.

Lemma merge_shows_paint_witness :
  merge (cv:=Raster.cv2) camera (plain 2 3 (10, 20, 30)) dotted
    = Ok merged_dotted
  ∧ pixel_at dotted 0 0 = Some RED
  ∧ cv2_gray (Cv2:=Raster.cv2) RED > 50
  ∧ pixel_at merged_dotted 0 0 = Some RED.
Proof.
  split_and!; [vm_compute; reflexivity | reflexivity | reflexivity |].
  apply (merge_shows_paint (cv:=Raster.cv2) camera (plain 2 3 (10, 20, 30))
           dotted merged_dotted 0 0 RED);
    [vm_compute; reflexivity | reflexivity | reflexivity].
Defined.

Lemma merge_outside_header_witness :
  merge (cv:=Raster.cv2) camera (plain 2 3 (10, 20, 30)) dotted
    = Ok merged_dotted
  ∧ rectangular 3 (plain 2 3 (10, 20, 30))
  ∧ ((length (header (start 8)) ≤ 1)%nat ∨ (3 ≤ 4)%nat)
  ∧ pixel_at camera 1 4 = Some (100, 110, 120)
  ∧ uint8_pixel (100, 110, 120)
  ∧ ∃ cp,
      pixel_at dotted 1 4 = Some cp
      ∧ pixel_at merged_dotted 1 4 =
          Some (if bool_decide (cv2_gray (Cv2:=Raster.cv2) cp > 50) then cp
                else channelwise Z.lor (100, 110, 120) cp).
Proof.
  assert (Hr : rectangular 3 (plain 2 3 (10, 20, 30)))
    by (repeat constructor).
  assert (Hu : uint8_pixel (100, 110, 120))
    by (unfold uint8_pixel, uint8; cbn; lia).
  split_and!;
    [vm_compute; reflexivity | exact Hr | right; lia | reflexivity | exact Hu |].
  apply (merge_outside_header (cv:=Raster.cv2) camera (plain 2 3 (10, 20, 30))
           dotted merged_dotted 3 1 4 (100, 110, 120));
    [vm_compute; reflexivity | exact Hr | right; lia | reflexivity | exact Hu].
Defined.

Lemma merge_canvas_outcome_witness :
  same_shape camera dotted = true
  ∧ ∃ out,
      merge_canvas (cv:=Raster.cv2) camera dotted = Ok out
      ∧ same_shape camera out = true
      ∧ ∀ r c p cp,
          pixel_at camera r c = Some p → pixel_at dotted r c = Some cp →
          pixel_at out r c =
            Some (channelwise Z.lor
                    (channelwise Z.land p
                       (if bool_decide (cv2_gray (Cv2:=Raster.cv2) cp > 50)
                        then (0, 0, 0) else (255, 255, 255)))
                    cp).
Proof.
  split; [reflexivity|].
  apply (merge_canvas_outcome (cv:=Raster.cv2) camera dotted). reflexivity.
Defined.

Lemma merge_canvas_twice_witness :
  merge_canvas (cv:=Raster.cv2) camera dotted = Ok composited
  ∧ uint8_image dotted
  ∧ merge_canvas (cv:=Raster.cv2) composited dotted = Ok composited.
Proof.
  assert (Hu : uint8_image dotted).
  { unfold uint8_image, uint8_pixel, uint8.
    repeat (constructor; [repeat (constructor; [cbn; lia|]); constructor|]).
    constructor. }
  split_and!; [vm_compute; reflexivity | exact Hu |].
  apply (merge_canvas_twice (cv:=Raster.cv2) camera dotted composited);
    [vm_compute; reflexivity | exact Hu].
Defined.
